(** * Stock Analysis AI Assistant: the chat core of [Stockapp.py]

    A shallow embedding of the two pieces of logic of the application:
    the completion client [query_huggingface] (request construction,
    line-based history reconstruction, classification of the endpoint's
    outcome) and the send handler at the end of the script (conversation
    store, context window, serialisation of the history).

    Python text is a sequence of Unicode code points; exceptions are made
    explicit through an outcome type; the network and Streamlit's session
    state are threaded through a [world]. *)

From Stdlib Require Import String Ascii List Bool Arith ZArith NArith QArith Lia.
From Stdlib Require Import DecimalString.
From Stdlib Require Floats.SpecFloat.
Import ListNotations.

Set Implicit Arguments.
Close Scope Q_scope.

(* ===================================================================== *)
(** ** Python text *)
(* ===================================================================== *)

(** A Python [str] is a sequence of code points. *)
Definition char := N.
Definition str := list char.

(** Source literals are written as Rocq strings, whose bytes are the UTF-8
    encoding of the literal; [utf8_run] decodes them ([need] continuation
    bytes are still expected for the code point accumulated in [acc]). *)
Fixpoint utf8_run (acc : N) (need : nat) (s : string) : str :=
  match s with
  | EmptyString => []
  | String a s' =>
      let b := N_of_ascii a in
      match need with
      | S k =>
          let acc' := (acc * 64 + N.land b 63)%N in
          match k with
          | O => acc' :: utf8_run 0 0 s'
          | S _ => utf8_run acc' k s'
          end
      | O =>
          if (b <? 128)%N then b :: utf8_run 0 0 s'
          else if (b <? 224)%N then utf8_run (b - 192)%N 1 s'
          else if (b <? 240)%N then utf8_run (b - 224)%N 2 s'
          else utf8_run (b - 240)%N 3 s'
      end
  end.

Definition text (s : string) : str := utf8_run 0 0 s.

Definition char_eqb (a b : char) : bool := N.eqb a b.

Fixpoint str_eqb (a b : str) : bool :=
  match a, b with
  | [], [] => true
  | x :: a', y :: b' => char_eqb x y && str_eqb a' b'
  | _, _ => false
  end.

(** [bool(s)] for a [str]: the empty string is falsy. *)
Definition str_truthy (s : str) : bool :=
  match s with
  | [] => false
  | _ :: _ => true
  end.

(** [s.startswith(p)]. *)
Fixpoint startswith (p s : str) : bool :=
  match p with
  | [] => true
  | a :: p' =>
      match s with
      | [] => false
      | b :: s' => char_eqb a b && startswith p' s'
      end
  end.

(** [p in s] for two [str]: substring test. *)
Fixpoint contains (p s : str) : bool :=
  startswith p s ||
  match s with
  | [] => false
  | _ :: s' => contains p s'
  end.

(** [s.replace(old, new)]: one left-to-right pass over non-overlapping
    occurrences. [skip] counts the characters of a matched occurrence
    still to be passed over. *)
Fixpoint replace_from (old new : str) (skip : nat) (s : str) : str :=
  match s with
  | [] => []
  | c :: s' =>
      match skip with
      | S k => replace_from old new k s'
      | O =>
          if startswith old s
          then new ++ replace_from old new (length old - 1) s'
          else c :: replace_from old new 0 s'
      end
  end.

Definition replace (old new s : str) : str :=
  match old with
  | [] => new ++ flat_map (fun c => c :: new) s
  | _ :: _ => replace_from old new 0 s
  end.

(** [s.split(sep)] for a one-character separator: never empty, and
    [''.split(sep) == ['']]. *)
Fixpoint split (sep : char) (s : str) : list str :=
  match s with
  | [] => [[]]
  | c :: s' =>
      if char_eqb c sep then [] :: split sep s'
      else
        match split sep s' with
        | [] => [[c]]
        | l :: ls => (c :: l) :: ls
        end
  end.

(** [sep.join(parts)]. *)
Fixpoint join (sep : str) (parts : list str) : str :=
  match parts with
  | [] => []
  | [p] => p
  | p :: ps => p ++ sep ++ join sep ps
  end.

(** [c.isspace()], the table of CPython's [_PyUnicode_IsWhitespace]. *)
Definition isspace (c : char) : bool :=
  ((9 <=? c) && (c <=? 13) || (28 <=? c) && (c <=? 32)
   || (c =? 133) || (c =? 160) || (c =? 5760)
   || (8192 <=? c) && (c <=? 8202)
   || (c =? 8232) || (c =? 8233) || (c =? 8239) || (c =? 8287)
   || (c =? 12288))%N.

Fixpoint lstrip (s : str) : str :=
  match s with
  | [] => []
  | c :: s' => if isspace c then lstrip s' else s
  end.

Definition rstrip (s : str) : str := rev (lstrip (rev s)).

(** [s.strip()]. *)
Definition strip (s : str) : str := rstrip (lstrip s).

(** Case mapping on the ASCII letters; other characters are left as they
    are. The program applies [capitalize] to the role literals only. *)
Definition upper_char (c : char) : char :=
  if ((97 <=? c) && (c <=? 122))%N then (c - 32)%N else c.

Definition lower_char (c : char) : char :=
  if ((65 <=? c) && (c <=? 90))%N then (c + 32)%N else c.

(** [s.capitalize()]: first character upper-cased, the rest lower-cased. *)
Definition capitalize (s : str) : str :=
  match s with
  | [] => []
  | c :: s' => upper_char c :: map lower_char s'
  end.

(** [str(n)] for an [int]. *)
Definition str_of_int (z : Z) : str :=
  text (NilZero.string_of_int (Z.to_int z)).

(* ===================================================================== *)
(** ** Python values, exceptions *)
(* ===================================================================== *)

(** What [json] decoding produces: [None], [bool], [int], [float], [str],
    [list] and [dict] with [str] keys (in insertion order, keys distinct). *)
#[warning="-register-all"] Inductive pyval : Type :=
| PNone
| PBool (b : bool)
| PInt (z : Z)
| PFloat (f : SpecFloat.spec_float)
| PStr (s : str)
| PList (l : list pyval)
| PDict (kvs : list (str * pyval)).

(** The ways an operation of the interpreter fails on such a value. *)
#[warning="-register-all"] Inductive fault : Type :=
| NotIterable (v : pyval)               (* TypeError of [x in v] *)
| BadSubscript (v key : pyval)          (* TypeError of [v[key]] *)
| NoLength (v : pyval)                  (* TypeError of [len(v)] *)
| MissingKey (key : pyval)              (* KeyError of [v[key]] on a dict *)
| IndexOutOfRange (v : pyval)           (* IndexError of [v[i]] *)
| NoAttribute (v : pyval) (name : str). (* AttributeError of [v.name] *)

(** Exceptions deriving from [Exception], by the classes the handlers of
    [query_huggingface] tell apart. *)
Inductive exn : Type :=
| RequestException (msg : str)  (* requests.exceptions.RequestException
                                   and subclasses: ConnectionError, Timeout,
                                   HTTPError, JSONDecodeError, ... *)
| BuiltinError (f : fault)      (* raised by the interpreter *)
| OtherException (msg : str).   (* any other subclass of [Exception] *)

(** A computation returns or raises. *)
Inductive outcome (A : Type) : Type :=
| Returns (a : A)
| Raises (e : exn).

Arguments Returns {A} a.
Arguments Raises {A} e.

Definition raise_fault {A} (f : fault) : outcome A := Raises (BuiltinError f).

Fixpoint dict_lookup (k : str) (kvs : list (str * pyval)) : option pyval :=
  match kvs with
  | [] => None
  | (k', v) :: kvs' => if str_eqb k' k then Some v else dict_lookup k kvs'
  end.

(** [v == s] for a [str] [s]. *)
Definition py_eq_str (v : pyval) (s : str) : bool :=
  match v with
  | PStr t => str_eqb t s
  | _ => false
  end.

(** [bool(v)]. *)
Definition py_truthy (v : pyval) : bool :=
  match v with
  | PNone => false
  | PBool b => b
  | PInt z => negb (z =? 0)%Z
  | PFloat (SpecFloat.S754_zero _) => false
  | PFloat _ => true
  | PStr s => str_truthy s
  | PList [] => false
  | PList (_ :: _) => true
  | PDict [] => false
  | PDict (_ :: _) => true
  end.

(** [key in v] for a [str] [key]: key test on a dict, element test on a
    list, substring test on a str. *)
Definition py_in (key : str) (v : pyval) : outcome bool :=
  match v with
  | PDict kvs =>
      Returns (match dict_lookup key kvs with Some _ => true | None => false end)
  | PList l => Returns (existsb (fun x => py_eq_str x key) l)
  | PStr s => Returns (contains key s)
  | _ => raise_fault (NotIterable v)
  end.

(** [v[key]] for a [str] [key]. *)
Definition py_getitem_str (v : pyval) (key : str) : outcome pyval :=
  match v with
  | PDict kvs =>
      match dict_lookup key kvs with
      | Some x => Returns x
      | None => raise_fault (MissingKey (PStr key))
      end
  | _ => raise_fault (BadSubscript v (PStr key))
  end.

(** [v[i]] for an [int] [i]. *)
Definition py_getitem_int (v : pyval) (i : Z) : outcome pyval :=
  match v with
  | PList l =>
      let n := Z.of_nat (List.length l) in
      let j := (if i <? 0 then i + n else i)%Z in
      if ((0 <=? j) && (j <? n))%Z
      then match nth_error l (Z.to_nat j) with
           | Some x => Returns x
           | None => raise_fault (IndexOutOfRange v)
           end
      else raise_fault (IndexOutOfRange v)
  | PStr s =>
      let n := Z.of_nat (List.length s) in
      let j := (if i <? 0 then i + n else i)%Z in
      if ((0 <=? j) && (j <? n))%Z
      then match nth_error s (Z.to_nat j) with
           | Some c => Returns (PStr [c])
           | None => raise_fault (IndexOutOfRange v)
           end
      else raise_fault (IndexOutOfRange v)
  | PDict _ => raise_fault (MissingKey (PInt i))
  | _ => raise_fault (BadSubscript v (PInt i))
  end.

(** [len(v)]. *)
Definition py_len (v : pyval) : outcome Z :=
  match v with
  | PStr s => Returns (Z.of_nat (List.length s))
  | PList l => Returns (Z.of_nat (List.length l))
  | PDict kvs => Returns (Z.of_nat (List.length kvs))
  | _ => raise_fault (NoLength v)
  end.

(** [v.get(key, default)]: only a dict has the method. *)
Definition py_get (v : pyval) (key : str) (default : pyval) : outcome pyval :=
  match v with
  | PDict kvs =>
      Returns (match dict_lookup key kvs with Some x => x | None => default end)
  | _ => raise_fault (NoAttribute v (text "get"))
  end.

(** [v.strip()]: only a str has the method. *)
Definition py_strip (v : pyval) : outcome str :=
  match v with
  | PStr s => Returns (strip s)
  | _ => raise_fault (NoAttribute v (text "strip"))
  end.

(* ===================================================================== *)
(** ** Messages, requests, responses *)
(* ===================================================================== *)

(** A message is the dict [{"role": ..., "content": ...}]. *)
Record message : Type := Message { role : str; content : str }.

(** The [payload] dict of [query_huggingface]. *)
Record payload : Type := Payload {
  model : str;
  messages : list message;
  max_tokens : Z;
  temperature : Q;
  top_p : Q;
  stream : bool
}.

(** The arguments of one [requests.post] call. *)
Record request : Type := Request {
  req_url : str;
  req_headers : list (str * str);
  req_json : payload;
  req_timeout : Z
}.

(** What the client reads of a [requests.Response]: [json_result] is what
    [response.json()] does, the decoded body or the exception it raises (a
    body that is not JSON raises requests' JSONDecodeError, a
    [RequestException]). *)
Record response : Type := Response {
  status_code : Z;
  reason : str;
  url : str;
  json_result : outcome pyval
}.

(** [Response.raise_for_status] of the requests library: an [HTTPError]
    (a [RequestException]) for the statuses 400 to 599. *)
Definition raise_for_status (r : response) : outcome unit :=
  let http_error_msg :=
    if ((400 <=? status_code r) && (status_code r <? 500))%Z
    then str_of_int (status_code r) ++ text " Client Error: " ++ reason r
         ++ text " for url: " ++ url r
    else if ((500 <=? status_code r) && (status_code r <? 600))%Z
    then str_of_int (status_code r) ++ text " Server Error: " ++ reason r
         ++ text " for url: " ++ url r
    else [] in
  if str_truthy http_error_msg
  then Raises (RequestException http_error_msg)
  else Returns tt.

(* ===================================================================== *)
(** ** The world: session state and network *)
(* ===================================================================== *)

(** [st.session_state] and the remote endpoint. The endpoint's answer to
    a call may depend on the calls made before; [posted] logs the calls. *)
Record world : Type := World {
  st_messages : list message;
  st_conversation_context : str;
  endpoint : list request -> request -> outcome response;
  posted : list request
}.

Definition M (A : Type) : Type := world -> outcome A * world.

Definition ret {A} (a : A) : M A := fun w => (Returns a, w).

Definition bind {A B} (c : M A) (k : A -> M B) : M B :=
  fun w =>
    match c w with
    | (Returns a, w') => k a w'
    | (Raises e, w') => (Raises e, w')
    end.

Definition lift {A} (c : outcome A) : M A := fun w => (c, w).

(** [try: body except Exception as e: handler e]. *)
Definition try_except {A} (body : M A) (handler : exn -> M A) : M A :=
  fun w =>
    match body w with
    | (Returns a, w') => (Returns a, w')
    | (Raises e, w') => handler e w'
    end.

Declare Scope py_scope.
Delimit Scope py_scope with py.
Notation "x <- c ;; k" := (bind c (fun x => k))
  (at level 61, c at next level, right associativity) : py_scope.

(** [requests.post(url, headers=..., json=..., timeout=...)]. *)
Definition requests_post (req : request) : M response :=
  fun w =>
    (endpoint w (posted w) req,
     {| st_messages := st_messages w;
        st_conversation_context := st_conversation_context w;
        endpoint := endpoint w;
        posted := posted w ++ [req] |}).

Definition get_messages : M (list message) :=
  fun w => (Returns (st_messages w), w).

(** [st.session_state.messages.append(m)]. *)
Definition messages_append (m : message) : M unit :=
  fun w =>
    (Returns tt,
     {| st_messages := st_messages w ++ [m];
        st_conversation_context := st_conversation_context w;
        endpoint := endpoint w;
        posted := posted w |}).

Definition set_messages (l : list message) : M unit :=
  fun w =>
    (Returns tt,
     {| st_messages := l;
        st_conversation_context := st_conversation_context w;
        endpoint := endpoint w;
        posted := posted w |}).

Definition set_conversation_context (c : str) : M unit :=
  fun w =>
    (Returns tt,
     {| st_messages := st_messages w;
        st_conversation_context := c;
        endpoint := endpoint w;
        posted := posted w |}).

(* ===================================================================== *)
(** ** Fixed texts *)
(* ===================================================================== *)

Definition SYSTEM_PROMPT : str := text "You are a friendly and knowledgeable stock market analysis assistant designed for beginners. 
Your role is to help users understand stock market concepts, analyze stocks, and make informed investment decisions.

Guidelines:
- Explain concepts in simple, easy-to-understand language
- Use examples and analogies when explaining complex topics
- Provide balanced analysis considering both risks and opportunities
- Always remind users that this is educational information, not financial advice
- Be encouraging and supportive to beginners
- Break down complex topics into digestible parts
- Use bullet points for clarity when listing multiple points

Topics you can help with:
- Stock fundamentals (P/E ratio, EPS, Market Cap, etc.)
- Technical analysis basics
- Investment strategies
- Market trends and sectors
- Risk management
- Portfolio diversification
- Reading financial statements
- Understanding market news

Always be helpful, clear, and educational in your responses.".

Definition MSG_NO_KEY : str :=
  text "❌ HF_API_KEY not found in .env file. Please add your Hugging Face API token.".

Definition MSG_LOADING : str :=
  text "⏳ Model is currently loading. Please try again in a moment.".

Definition MSG_INVALID_KEY : str :=
  text "❌ Invalid API key. Please check your HF_API_KEY in the .env file.".

Definition MSG_RATE_LIMIT : str :=
  text "⚠️ Rate limit reached. Please wait a moment and try again.".

Definition MSG_FALLBACK : str :=
  text "I apologize, but I couldn't generate a response. Please try rephrasing your question.".

Definition MSG_AUTH_FAILED : str :=
  text "❌ Authentication failed. Please verify your HF_API_KEY.".

Definition msg_unexpected_format (body : str) : str :=
  text "⚠️ Unexpected response format: " ++ body.

Definition msg_model_not_found (model_name : str) : str :=
  text "❌ Model '" ++ model_name
  ++ text "' not found. Please check your MODEL_NAME in .env file.".

Definition msg_connection_error (error_msg : str) : str :=
  text "⚠️ Connection error: " ++ error_msg ++ text "

Please check:
- Your internet connection
- Your HF_API_KEY
- The API endpoint URL".

Definition msg_unexpected_error (error_msg : str) : str :=
  text "⚠️ Unexpected error: " ++ error_msg.

Definition newline : char := 10%N.

(* ===================================================================== *)
(** ** The application *)
(* ===================================================================== *)

Section Stockapp.

(** Configuration read from the environment when the script starts:
    [os.getenv("HF_API_KEY")] is [None] when the variable is not set. *)
Variable HF_API_KEY : option str.
Variable API_URL : str.
Variable MODEL_NAME : str.

(** Python's [str(v)] on a decoded JSON value and [str(e)] on an exception
    raised by the interpreter: texts of the interpreter, not of the
    program. *)
Variable py_str : pyval -> str.
Variable fault_text : fault -> str.

Local Open Scope py_scope.

(** [str(e)]. *)
Definition exn_str (e : exn) : str :=
  match e with
  | RequestException msg => msg
  | BuiltinError f => fault_text f
  | OtherException msg => msg
  end.

(** [bool(HF_API_KEY)]: [None] and the empty string are falsy. *)
Definition key_configured : bool :=
  match HF_API_KEY with
  | Some key => str_truthy key
  | None => false
  end.

(** Lines 152-158: the loop over the lines of the context, appending to
    [messages]. *)
Definition append_history_line (messages : list message) (line : str)
  : list message :=
  if startswith (text "User:") line
  then messages ++ [Message (text "user")
                      (strip (replace (text "User:") [] line))]
  else if startswith (text "Assistant:") line
  then messages ++ [Message (text "assistant")
                      (strip (replace (text "Assistant:") [] line))]
  else messages.

(** Lines 147-161: the [messages] array of the request. *)
Definition build_messages (prompt context : str) : list message :=
  let messages := [Message (text "system") SYSTEM_PROMPT] in
  let messages :=
    if str_truthy context
    then fold_left append_history_line (split newline context) messages
    else messages in
  messages ++ [Message (text "user") prompt].

(** Lines 163-170. *)
Definition build_payload (prompt context : str) : payload :=
  {| model := MODEL_NAME;
     messages := build_messages prompt context;
     max_tokens := 512;
     temperature := (7 # 10)%Q;
     top_p := (9 # 10)%Q;
     stream := false |}.

(** Lines 141-144 and 173. *)
Definition build_request (key prompt context : str) : request :=
  {| req_url := API_URL;
     req_headers :=
       [(text "Authorization", text "Bearer " ++ key);
        (text "Content-Type", text "application/json")];
     req_json := build_payload prompt context;
     req_timeout := 30 |}.

(** Lines 189-196: the reading of the decoded body. *)
Definition extract_response (result : pyval) : outcome str :=
  match py_in (text "choices") result with
  | Raises e => Raises e
  | Returns has_choices =>
      let nonempty :=
        if has_choices
        then match py_getitem_str result (text "choices") with
             | Raises e => Raises e
             | Returns choices =>
                 match py_len choices with
                 | Raises e => Raises e
                 | Returns n => Returns (0 <? n)%Z
                 end
             end
        else Returns false in
      match nonempty with
      | Raises e => Raises e
      | Returns true =>
          match py_getitem_str result (text "choices") with
          | Raises e => Raises e
          | Returns choices =>
              match py_getitem_int choices 0 with
              | Raises e => Raises e
              | Returns first =>
                  match py_get first (text "message") (PDict []) with
                  | Raises e => Raises e
                  | Returns msg =>
                      match py_get msg (text "content") (PStr []) with
                      | Raises e => Raises e
                      | Returns message_content =>
                          if py_truthy message_content
                          then py_strip message_content
                          else Returns MSG_FALLBACK
                      end
                  end
              end
          end
      | Returns false => Returns (msg_unexpected_format (py_str result))
      end
  end.

(** Lines 172-196: the body of the [try]. *)
Definition try_body (req : request) : M str :=
  response <- requests_post req ;;
  if (status_code response =? 503)%Z then ret MSG_LOADING
  else if (status_code response =? 401)%Z then ret MSG_INVALID_KEY
  else if (status_code response =? 429)%Z then ret MSG_RATE_LIMIT
  else
    _ <- lift (raise_for_status response) ;;
    result <- lift (json_result response) ;;
    lift (extract_response result).

(** Lines 198-207: the two [except] clauses, tried in order. *)
Definition handle_exception (e : exn) : M str :=
  match e with
  | RequestException _ =>
      let error_msg := exn_str e in
      if contains (text "401") error_msg then ret MSG_AUTH_FAILED
      else if contains (text "404") error_msg
      then ret (msg_model_not_found MODEL_NAME)
      else ret (msg_connection_error error_msg)
  | _ => ret (msg_unexpected_error (exn_str e))
  end.

(** [query_huggingface(prompt, context)]. *)
Definition query_huggingface (prompt context : str) : M str :=
  match HF_API_KEY with
  | None => ret MSG_NO_KEY
  | Some key =>
      if negb (str_truthy key) then ret MSG_NO_KEY
      else try_except (try_body (build_request key prompt context))
                      handle_exception
  end.

(** Line 318: [messages[-6:] if len(messages) > 6 else messages]. *)
Definition context_messages_of (messages : list message) : list message :=
  if 6 <? List.length messages
  then skipn (List.length messages - 6) messages
  else messages.

(** [l[:-1]]. *)
Definition all_but_last {A} (l : list A) : list A :=
  firstn (List.length l - 1) l.

(** Line 319: one line ["Role: content"] per message of the history. *)
Definition format_message (msg : message) : str :=
  capitalize (role msg) ++ text ": " ++ content msg.

Definition serialize (history : list message) : str :=
  join [newline] (map format_message history).

(** Lines 313-335: the processing of the user's input. *)
Definition process_input (send_button : bool) (prompt : str) : M unit :=
  if (send_button || str_truthy prompt) && str_truthy prompt && key_configured
  then
    _ <- messages_append (Message (text "user") prompt) ;;
    messages <- get_messages ;;
    let context_messages := context_messages_of messages in
    let context := serialize (all_but_last context_messages) in
    response <- query_huggingface prompt context ;;
    _ <- messages_append (Message (text "assistant") response) ;;
    set_conversation_context context
  else ret tt.

(** Lines 242-245: the clear button. *)
Definition clear_conversation : M unit :=
  _ <- set_messages [] ;;
  set_conversation_context [].

(** One run of the script on the widgets' values; a click on the clear
    button ends the run ([st.rerun()]). *)
Record widgets : Type := Widgets {
  clear_clicked : bool;
  send_clicked : bool;
  text_input : str
}.

Definition run_script (ui : widgets) : M unit :=
  if clear_clicked ui then clear_conversation
  else process_input (send_clicked ui) (text_input ui).

(** A session: the runs of the script, one after the other, as long as
    none ends in an exception. *)
Fixpoint run_session (runs : list widgets) : M unit :=
  match runs with
  | [] => ret tt
  | ui :: runs' => _ <- run_script ui ;; run_session runs'
  end.

(** Lines 104-108: the session state of a fresh session. *)
Definition initial_world (ep : list request -> request -> outcome response)
  : world :=
  {| st_messages := [];
     st_conversation_context := [];
     endpoint := ep;
     posted := [] |}.

(* ===================================================================== *)
(** ** The specification's notions *)
(* ===================================================================== *)

(** [window(n)] of the conversation store: the last [n] entries, or all
    of them when there are fewer, in their order. *)
Definition window (n : nat) (store : list message) : list message :=
  rev (firstn n (rev store)).

(** The two roles the store receives, and the role of the preamble. *)
Definition user_role : str := text "user".
Definition assistant_role : str := text "assistant".
Definition system_role : str := text "system".

Definition system_message : message := Message system_role SYSTEM_PROMPT.

Definition stored_role (m : message) : Prop :=
  role m = user_role \/ role m = assistant_role.

Definition system_first (req : request) : Prop :=
  nth_error (messages (req_json req)) 0 = Some system_message.

(** What holds of the world throughout a session. *)
Definition session_invariant (w : world) : Prop :=
  Forall stored_role (st_messages w) /\ Forall system_first (posted w).

(** A line of the context is tagged when it starts with one of the two
    prefixes. *)
Definition user_tag : str := text "User:".
Definition assistant_tag : str := text "Assistant:".

Definition tagged (line : str) : bool :=
  startswith user_tag line || startswith assistant_tag line.

(** [occurs_at tok s i]: the token occurs in [s] at position [i]. *)
Definition occurs_at (tok s : str) (i : nat) : Prop :=
  startswith tok (skipn i s) = true.


(** The entry a tagged line stands for. *)
Definition entry_of_line (line : str) : message :=
  if startswith user_tag line
  then Message user_role (strip (replace user_tag [] line))
  else Message assistant_role (strip (replace assistant_tag [] line)).

(** History as the claim words it: one entry per tagged line, in order;
    the other lines are dropped. *)
Definition history_of_context (context : str) : list message :=
  map entry_of_line (filter tagged (split newline context)).

(** The statuses for which the requests library raises. *)
Definition error_status (status : Z) : bool :=
  ((400 <=? status) && (status <? 600))%Z.

(** The first choice of a body carries no completion text: no
    [message], or a [message] whose [content] is absent or empty. *)
Definition no_completion_text (first : list (str * pyval)) : Prop :=
  dict_lookup (text "message") first = None \/
  exists msg,
    dict_lookup (text "message") first = Some (PDict msg) /\
    (dict_lookup (text "content") msg = None \/
     dict_lookup (text "content") msg = Some (PStr [])).

(** A decoded body on which the test ["choices" in result] is defined and
    fails: an object without that key, an array without that element, a
    text without that substring. *)
Definition lacks_choices (body : pyval) : Prop :=
  match body with
  | PDict kvs => dict_lookup (text "choices") kvs = None
  | PList l => existsb (fun x => py_eq_str x (text "choices")) l = false
  | PStr s => contains (text "choices") s = false
  | _ => False
  end.

(** The world after one call of [requests.post]. *)
Definition after_post (req : request) (w : world) : world :=
  {| st_messages := st_messages w;
     st_conversation_context := st_conversation_context w;
     endpoint := endpoint w;
     posted := posted w ++ [req] |}.

(** The world after the store has received [m]. *)
Definition with_message (m : message) (w : world) : world :=
  {| st_messages := st_messages w ++ [m];
     st_conversation_context := st_conversation_context w;
     endpoint := endpoint w;
     posted := posted w |}.

Definition with_context (c : str) (w : world) : world :=
  {| st_messages := st_messages w;
     st_conversation_context := c;
     endpoint := endpoint w;
     posted := posted w |}.

(* ===================================================================== *)
(** ** Data of the concrete runs *)
(* ===================================================================== *)

Definition type_name (v : pyval) : str :=
  match v with
  | PNone => text "NoneType"
  | PBool _ => text "bool"
  | PInt _ => text "int"
  | PFloat _ => text "float"
  | PStr _ => text "str"
  | PList _ => text "list"
  | PDict _ => text "dict"
  end.

(** Python's rendering of plain text: single quotes, no character to
    escape. *)
Definition sample_quote (s : str) : str := text "'" ++ s ++ text "'".

(** A rendering for the concrete runs below: Python's [str(v)] on
    [None], booleans, integers, plain text, and lists and dicts of
    these. Floats are not rendered. *)
Fixpoint sample_str (v : pyval) : str :=
  match v with
  | PNone => text "None"
  | PBool true => text "True"
  | PBool false => text "False"
  | PInt z => str_of_int z
  | PFloat _ => text "<float>"
  | PStr s => sample_quote s
  | PList l =>
      text "[" ++ join (text ", ") (map sample_str l) ++ text "]"
  | PDict kvs =>
      text "{"
      ++ join (text ", ")
           (map (fun kv => sample_quote (fst kv) ++ text ": "
                           ++ sample_str (snd kv)) kvs)
      ++ text "}"
  end.

(** The interpreter's messages, in CPython's wording. *)
Definition sample_fault_text (f : fault) : str :=
  match f with
  | NotIterable v =>
      text "argument of type '" ++ type_name v ++ text "' is not iterable"
  | BadSubscript v key =>
      match v with
      | PList _ =>
          text "list indices must be integers or slices, not "
          ++ type_name key
      | PStr _ =>
          text "string indices must be integers, not '"
          ++ type_name key ++ text "'"
      | _ => text "'" ++ type_name v ++ text "' object is not subscriptable"
      end
  | NoLength v =>
      text "object of type '" ++ type_name v ++ text "' has no len()"
  | MissingKey key => sample_str key
  | IndexOutOfRange v =>
      match v with
      | PStr _ => text "string index out of range"
      | _ => text "list index out of range"
      end
  | NoAttribute v name =>
      text "'" ++ type_name v ++ text "' object has no attribute '"
      ++ name ++ text "'"
  end.

Definition sample_key : str := text "hf_token".
Definition sample_url : str :=
  text "https://router.huggingface.co/v1/chat/completions".
Definition sample_model : str := text "google/gemma-2-2b-it".

(** An endpoint that answers every call in the same way. *)
Definition always (o : outcome response)
  : list request -> request -> outcome response :=
  fun _ _ => o.

Definition respond (status : Z) (why : str) (body : outcome pyval)
  : outcome response :=
  Returns {| status_code := status; reason := why; url := sample_url;
             json_result := body |}.

Definition completion_body (t : pyval) : pyval :=
  PDict [(text "choices",
          PList [PDict [(text "message", PDict [(text "content", t)])]])].

Definition sample_world (ep : list request -> request -> outcome response)
  (store : list message) : world :=
  {| st_messages := store;
     st_conversation_context := [];
     endpoint := ep;
     posted := [] |}.

Definition sample_store : list message :=
  [ Message user_role (text "q1"); Message assistant_role (text "a1");
    Message user_role (text "q2"); Message assistant_role (text "a2");
    Message user_role (text "q3"); Message assistant_role (text "a3");
    Message user_role (text "q4"); Message assistant_role (text "a4") ].

(* ===================================================================== *)
(** ** The rest of the script *)
(* ===================================================================== *)

Definition slash : char := 47%N.

(** [l[i]] for a list of texts and an [int] [i]. *)
Definition list_getitem (l : list str) (i : Z) : outcome str :=
  let n := Z.of_nat (List.length l) in
  let j := (if i <? 0 then i + n else i)%Z in
  if ((0 <=? j) && (j <? n))%Z
  then match nth_error l (Z.to_nat j) with
       | Some x => Returns x
       | None => raise_fault (IndexOutOfRange (PList (map PStr l)))
       end
  else raise_fault (IndexOutOfRange (PList (map PStr l))).

(** Line 263: the label of the endpoint in the sidebar,
    [API_URL.split('/')[-2] + '/' + API_URL.split('/')[-1]]. *)
Definition endpoint_label : outcome str :=
  match list_getitem (split slash API_URL) (-2) with
  | Raises e => Raises e
  | Returns a =>
      match list_getitem (split slash API_URL) (-1) with
      | Raises e => Raises e
      | Returns b => Returns (a ++ text "/" ++ b)
      end
  end.

(** One run of the whole script: the sidebar (lines 210-270) with the
    clear button and the endpoint label, then the main part. The clear
    button ends the run before the label is computed; an exception of
    the label ends the run before the input is processed. *)
Definition script_run (ui : widgets) : M unit :=
  if clear_clicked ui then clear_conversation
  else
    _ <- lift endpoint_label ;;
    process_input (send_clicked ui) (text_input ui).

(* ===================================================================== *)
(** ** Notions for the further properties *)
(* ===================================================================== *)

(** The text the first handler gives for the message of the error. *)
Definition request_error_text (error_msg : str) : str :=
  if contains (text "401") error_msg then MSG_AUTH_FAILED
  else if contains (text "404") error_msg
  then msg_model_not_found MODEL_NAME
  else msg_connection_error error_msg.

(** The text the handlers give for an exception: the first handler for
    a [RequestException], the second for any other. *)
Definition exception_text (e : exn) : str :=
  match e with
  | RequestException msg => request_error_text msg
  | _ => msg_unexpected_error (exn_str e)
  end.

(** The message of the [HTTPError] of an answer with an error status. *)
Definition http_error_message (r : response) : str :=
  str_of_int (status_code r)
  ++ (if (status_code r <? 500)%Z then text " Client Error: "
      else text " Server Error: ")
  ++ reason r ++ text " for url: " ++ url r.

(** A stored message that the context carries without loss: of role user
    or assistant, on one line, free of the tag of its own role, without
    surrounding whitespace. *)
Definition clean_message (m : message) : Prop :=
  (role m = user_role /\ contains user_tag (content m) = false \/
   role m = assistant_role /\ contains assistant_tag (content m) = false) /\
  ~ In newline (content m) /\
  strip (content m) = content m.


(** The parameters every request of the client carries. *)
Definition fixed_parameters (key : str) (req : request) : Prop :=
  req_url req = API_URL /\
  req_timeout req = 30%Z /\
  req_headers req =
    [(text "Authorization", text "Bearer " ++ key);
     (text "Content-Type", text "application/json")] /\
  model (req_json req) = MODEL_NAME /\
  max_tokens (req_json req) = 512%Z /\
  temperature (req_json req) = (7 # 10)%Q /\
  top_p (req_json req) = (9 # 10)%Q /\
  stream (req_json req) = false.

(** The context a send builds from the store, and the world it leaves
    when the client has answered [response]. *)
Definition sent_context (prompt : str) (w : world) : str :=
  serialize
    (all_but_last
       (context_messages_of (st_messages w ++ [Message user_role prompt]))).

Definition after_send (key prompt response : str) (w : world) : world :=
  {| st_messages :=
       st_messages w ++ [Message user_role prompt;
                         Message assistant_role response];
     st_conversation_context := sent_context prompt w;
     endpoint := endpoint w;
     posted :=
       posted w ++ [build_request key prompt (sent_context prompt w)] |}.

Definition clear_click : widgets :=
  {| clear_clicked := true; send_clicked := false; text_input := [] |}.

Definition send_click (prompt : str) : widgets :=
  {| clear_clicked := false; send_clicked := true; text_input := prompt |}.

(* ===================================================================== *)
(** ** Properties of the text operations *)
(* ===================================================================== *)

Lemma char_eqb_eq (a b : char) : char_eqb a b = true <-> a = b.
Proof. unfold char_eqb. apply N.eqb_eq. Qed.

Lemma char_eqb_refl (a : char) : char_eqb a a = true.
Proof. apply char_eqb_eq. reflexivity. Qed.

Lemma str_eqb_eq (a b : str) : str_eqb a b = true <-> a = b.
Proof.
  revert b. induction a as [|x a IH]; intros [|y b]; simpl; split;
    try congruence; try reflexivity.
  - intros H. apply andb_true_iff in H as [Hx Ha].
    apply char_eqb_eq in Hx. apply IH in Ha. congruence.
  - intros H. injection H as -> ->. rewrite char_eqb_refl. simpl.
    apply IH. reflexivity.
Qed.

Lemma startswith_app (p s : str) : startswith p (p ++ s) = true.
Proof.
  induction p as [|a p IH]; simpl; [reflexivity|].
  rewrite char_eqb_refl. exact IH.
Qed.


Lemma contains_cons (p : str) (c : char) (s : str) :
  contains p (c :: s) = startswith p (c :: s) || contains p s.
Proof. reflexivity. Qed.

Lemma replace_from_skip (old new x y : str) :
  replace_from old new (List.length x) (x ++ y) = replace_from old new 0 y.
Proof.
  induction x as [|c x IH]; simpl.
  - destruct y; reflexivity.
  - exact IH.
Qed.

Lemma replace_from_cons (old new : str) (c : char) (s : str) :
  replace_from old new 0 (c :: s) =
  if startswith old (c :: s)
  then new ++ replace_from old new (List.length old - 1) s
  else c :: replace_from old new 0 s.
Proof. reflexivity. Qed.

(** Without an occurrence of the token, [replace] changes nothing. *)
Lemma replace_from_absent (tok new s : str) :
  contains tok s = false -> replace_from tok new 0 s = s.
Proof.
  induction s as [|c s IH]; intros H; [reflexivity|].
  rewrite contains_cons in H. apply orb_false_iff in H as [H0 Hs].
  rewrite replace_from_cons, H0, (IH Hs). reflexivity.
Qed.

(** The leftmost occurrence is replaced, and the pass goes on behind it. *)
Lemma replace_from_leftmost (tok new a b : str) :
  tok <> [] ->
  (forall i, i < List.length a -> ~ occurs_at tok (a ++ tok ++ b) i) ->
  replace_from tok new 0 (a ++ tok ++ b) =
  a ++ new ++ replace_from tok new 0 b.
Proof.
  intros Htok. induction a as [|c a IH]; intros Hfirst.
  - destruct tok as [|t tok']; [congruence|].
    change ([] ++ (t :: tok') ++ b) with (t :: (tok' ++ b)).
    rewrite replace_from_cons.
    change (t :: tok' ++ b) with ((t :: tok') ++ b).
    rewrite startswith_app.
    replace (List.length (t :: tok') - 1) with (List.length tok')
      by (simpl; lia).
    rewrite replace_from_skip. reflexivity.
  - change ((c :: a) ++ tok ++ b) with (c :: (a ++ tok ++ b)).
    rewrite replace_from_cons.
    destruct (startswith tok (c :: a ++ tok ++ b)) eqn:E.
    + exfalso. apply (Hfirst 0); [simpl; lia|]. exact E.
    + rewrite IH; [reflexivity|].
      intros i Hi Hocc. apply (Hfirst (S i)); [simpl; lia|]. exact Hocc.
Qed.



(** The loop of [build_messages] appends the entries of the tagged
    lines. *)
Lemma fold_append_history (lines : list str) (acc : list message) :
  fold_left append_history_line lines acc =
  acc ++ map entry_of_line (filter tagged lines).
Proof.
  revert acc. induction lines as [|line lines IH]; intros acc.
  - cbn [fold_left filter map]. rewrite app_nil_r. reflexivity.
  - cbn [fold_left filter]. rewrite IH.
    unfold append_history_line, tagged.
    change (text "User:") with user_tag.
    change (text "Assistant:") with assistant_tag.
    change (text "user") with user_role.
    change (text "assistant") with assistant_role.
    destruct (startswith user_tag line) eqn:EU.
    + cbn [orb map]. unfold entry_of_line. rewrite EU.
      rewrite <- app_assoc. reflexivity.
    + destruct (startswith assistant_tag line) eqn:EA; cbn [orb map].
      * unfold entry_of_line. rewrite EU.
        rewrite <- app_assoc. reflexivity.
      * reflexivity.
Qed.

(* ===================================================================== *)
(** ** The completion client *)
(* ===================================================================== *)

Lemma str_truthy_app_r (a b : str) :
  str_truthy b = true -> str_truthy (a ++ b) = true.
Proof. destruct a; [trivial|reflexivity]. Qed.

Lemma raise_for_status_ok (r : response) :
  error_status (status_code r) = false -> raise_for_status r = Returns tt.
Proof.
  unfold error_status, raise_for_status. intros H.
  destruct ((400 <=? status_code r) && (status_code r <? 500))%Z eqn:E1.
  - apply andb_true_iff in E1 as [A B].
    apply andb_false_iff in H as [H|H]; lia.
  - destruct ((500 <=? status_code r) && (status_code r <? 600))%Z eqn:E2.
    + apply andb_true_iff in E2 as [A B].
      apply andb_false_iff in H as [H|H]; lia.
    + reflexivity.
Qed.

Lemma raise_for_status_error (r : response) :
  error_status (status_code r) = true ->
  exists msg, raise_for_status r = Raises (RequestException msg).
Proof.
  unfold error_status, raise_for_status. intros H.
  apply andb_true_iff in H as [A B].
  destruct ((400 <=? status_code r) && (status_code r <? 500))%Z eqn:E1.
  - eexists. rewrite str_truthy_app_r; [reflexivity|reflexivity].
  - destruct ((500 <=? status_code r) && (status_code r <? 600))%Z eqn:E2.
    + eexists. rewrite str_truthy_app_r; [reflexivity|reflexivity].
    + apply andb_false_iff in E1. apply andb_false_iff in E2. lia.
Qed.

(** With a credential the client runs the guarded block. *)
Lemma query_with_key (key prompt context : str) (w : world) :
  HF_API_KEY = Some key -> str_truthy key = true ->
  query_huggingface prompt context w =
  try_except (try_body (build_request key prompt context))
             handle_exception w.
Proof.
  intros HK HT. unfold query_huggingface. rewrite HK, HT. reflexivity.
Qed.

(** The guarded block on an answer of the endpoint. *)
Lemma try_body_response (req : request) (w : world) (r : response) :
  endpoint w (posted w) req = Returns r ->
  try_body req w =
  (if (status_code r =? 503)%Z then Returns MSG_LOADING
   else if (status_code r =? 401)%Z then Returns MSG_INVALID_KEY
   else if (status_code r =? 429)%Z then Returns MSG_RATE_LIMIT
   else match raise_for_status r with
        | Raises e => Raises e
        | Returns _ =>
            match json_result r with
            | Raises e => Raises e
            | Returns result => extract_response result
            end
        end,
   after_post req w).
Proof.
  intros H. unfold try_body, bind, requests_post. rewrite H.
  fold (after_post req w).
  destruct (status_code r =? 503)%Z; [reflexivity|].
  destruct (status_code r =? 401)%Z; [reflexivity|].
  destruct (status_code r =? 429)%Z; [reflexivity|].
  unfold lift.
  destruct (raise_for_status r); [|reflexivity].
  destruct (json_result r); reflexivity.
Qed.

Lemma try_body_raises (req : request) (w : world) (e : exn) :
  endpoint w (posted w) req = Raises e ->
  try_body req w = (Raises e, after_post req w).
Proof.
  intros H. unfold try_body, bind, requests_post. rewrite H. reflexivity.
Qed.

(** Both handlers return a text and leave the world as it is. *)
Lemma handle_exception_returns (e : exn) (w : world) :
  exists s, handle_exception e w = (Returns s, w).
Proof.
  unfold handle_exception. destruct e as [msg|f|msg].
  - destruct (contains (text "401") (exn_str (RequestException msg)));
      [eexists; reflexivity|].
    destruct (contains (text "404") (exn_str (RequestException msg)));
      eexists; reflexivity.
  - eexists; reflexivity.
  - eexists; reflexivity.
Qed.

(** The guarded block makes exactly one call. *)
Lemma try_body_world (req : request) (w : world) :
  snd (try_body req w) = after_post req w.
Proof.
  destruct (endpoint w (posted w) req) as [r|e] eqn:E.
  - rewrite (try_body_response _ _ E). reflexivity.
  - rewrite (try_body_raises _ _ E). reflexivity.
Qed.

Lemma try_except_world (req : request) (w : world) :
  snd (try_except (try_body req) handle_exception w) = after_post req w.
Proof.
  unfold try_except. pose proof (try_body_world req w) as H.
  destruct (try_body req w) as [[s|e] w']; simpl in H; subst w'.
  - reflexivity.
  - destruct (handle_exception_returns e (after_post req w)) as [s ->].
    reflexivity.
Qed.

(** C2. Without a configured credential ([HF_API_KEY] unset or empty) the
    client returns the configuration-error text, for every prompt and
    context, and the world is left as it was: no call of [requests.post]
    is made. *)
Theorem no_credential_no_call (prompt context : str) (w : world) :
  key_configured = false ->
  query_huggingface prompt context w = (Returns MSG_NO_KEY, w) /\
  posted (snd (query_huggingface prompt context w)) = posted w.
Proof.
  unfold key_configured, query_huggingface. intros H.
  destruct HF_API_KEY as [key|].
  - rewrite H. split; reflexivity.
  - split; reflexivity.
Qed.

(** C3. When the endpoint answers with status 503, 401 or 429, the client
    returns the fixed text of that status: the model-loading text for
    503, the invalid-key text for 401, the rate-limit text for 429. *)
Theorem status_classification
  (key prompt context : str) (w : world) (r : response) :
  HF_API_KEY = Some key -> str_truthy key = true ->
  endpoint w (posted w) (build_request key prompt context) = Returns r ->
  let w' := after_post (build_request key prompt context) w in
  (status_code r = 503%Z ->
   query_huggingface prompt context w = (Returns MSG_LOADING, w')) /\
  (status_code r = 401%Z ->
   query_huggingface prompt context w = (Returns MSG_INVALID_KEY, w')) /\
  (status_code r = 429%Z ->
   query_huggingface prompt context w = (Returns MSG_RATE_LIMIT, w')).
Proof.
  intros HK HT HR w'.
  rewrite (query_with_key _ _ _ HK HT). unfold try_except.
  rewrite (try_body_response _ _ HR). fold w'.
  repeat split; intros ->; reflexivity.
Qed.

(** C9. The client is total: for every prompt, context, world and
    outcome of the call (an answer of any status and body, or any
    exception deriving from [Exception]) it returns a text; no exception
    leaves it. *)
Theorem client_total (prompt context : str) (w : world) :
  exists (s : str) (w' : world),
    query_huggingface prompt context w = (Returns s, w').
Proof.
  unfold query_huggingface. destruct HF_API_KEY as [key|].
  - destruct (negb (str_truthy key)).
    + eexists _, _. reflexivity.
    + unfold try_except.
      destruct (try_body (build_request key prompt context) w)
        as [[s|e] w'].
      * eexists _, _. reflexivity.
      * destruct (handle_exception_returns e w') as [s ->].
        eexists _, _. reflexivity.
  - eexists _, _. reflexivity.
Qed.

Lemma status_not_special (status : Z) :
  error_status status = false ->
  (status =? 503)%Z = false /\ (status =? 401)%Z = false /\
  (status =? 429)%Z = false.
Proof.
  unfold error_status. intros H.
  apply andb_false_iff in H. repeat split; apply Z.eqb_neq; lia.
Qed.

(** The client on an answer that passes the status checks and decodes. *)
Lemma query_decoded
  (key prompt context : str) (w : world) (r : response) (body : pyval) :
  HF_API_KEY = Some key -> str_truthy key = true ->
  endpoint w (posted w) (build_request key prompt context) = Returns r ->
  error_status (status_code r) = false ->
  json_result r = Returns body ->
  query_huggingface prompt context w =
  match extract_response body with
  | Returns s => (Returns s, after_post (build_request key prompt context) w)
  | Raises e =>
      handle_exception e (after_post (build_request key prompt context) w)
  end.
Proof.
  intros HK HT HR HS HJ.
  rewrite (query_with_key _ _ _ HK HT). unfold try_except.
  rewrite (try_body_response _ _ HR).
  destruct (status_not_special _ HS) as (-> & -> & ->).
  rewrite (raise_for_status_ok _ HS), HJ.
  destruct (extract_response body); reflexivity.
Qed.

(** The reading of a body with a non-empty list of choices whose first
    element is an object. *)
Lemma extract_first_choice
  (kvs first : list (str * pyval)) (rest : list pyval) :
  dict_lookup (text "choices") kvs = Some (PList (PDict first :: rest)) ->
  extract_response (PDict kvs) =
  match py_get (PDict first) (text "message") (PDict []) with
  | Raises e => Raises e
  | Returns msg =>
      match py_get msg (text "content") (PStr []) with
      | Raises e => Raises e
      | Returns message_content =>
          if py_truthy message_content
          then py_strip message_content
          else Returns MSG_FALLBACK
      end
  end.
Proof.
  intros H. unfold extract_response, py_in, py_getitem_str.
  rewrite H. unfold py_len.
  replace (0 <? Z.of_nat (List.length (PDict first :: rest)))%Z with true
    by (symmetry; apply Z.ltb_lt; simpl List.length; lia).
  unfold py_getitem_int.
  replace (0 <? 0)%Z with false by reflexivity.
  replace ((0 <=? 0) && (0 <? Z.of_nat (List.length (PDict first :: rest))))%Z
    with true
    by (symmetry; apply andb_true_iff; split;
        [reflexivity | apply Z.ltb_lt; simpl List.length; lia]).
  reflexivity.
Qed.

(** C4 (amended). An answer with an error status (400 to 599) other than
    401, 429 and 503 is raised by [raise_for_status] as an [HTTPError]
    with a message, caught by the first handler, and surfaced as the
    connection-error text that includes this message, unless the message
    contains "401" (authentication-failed text) or "404" (model-not-found
    text). *)
Theorem error_status_surfaced
  (key prompt context : str) (w : world) (r : response) :
  HF_API_KEY = Some key -> str_truthy key = true ->
  endpoint w (posted w) (build_request key prompt context) = Returns r ->
  error_status (status_code r) = true ->
  status_code r <> 401%Z -> status_code r <> 429%Z ->
  status_code r <> 503%Z ->
  exists error_msg,
    raise_for_status r = Raises (RequestException error_msg) /\
    query_huggingface prompt context w =
    (Returns
       (if contains (text "401") error_msg then MSG_AUTH_FAILED
        else if contains (text "404") error_msg
        then msg_model_not_found MODEL_NAME
        else msg_connection_error error_msg),
     after_post (build_request key prompt context) w).
Proof.
  intros HK HT HR HS H401 H429 H503.
  destruct (raise_for_status_error _ HS) as [msg Hmsg].
  exists msg. split; [exact Hmsg|].
  rewrite (query_with_key _ _ _ HK HT). unfold try_except.
  rewrite (try_body_response _ _ HR).
  apply Z.eqb_neq in H401, H429, H503. rewrite H401, H429, H503, Hmsg.
  unfold handle_exception, exn_str.
  destruct (contains (text "401") msg); [reflexivity|].
  destruct (contains (text "404") msg); reflexivity.
Qed.

(** C5. On a successful answer whose body has a first choice with a
    [message] whose [content] is a non-empty text [t], the client returns
    [t] without its surrounding whitespace; for the content "  Hello  "
    it returns "Hello". *)
Theorem completion_text_trimmed
  (key prompt context : str) (w : world) (r : response) :
  HF_API_KEY = Some key -> str_truthy key = true ->
  endpoint w (posted w) (build_request key prompt context) = Returns r ->
  error_status (status_code r) = false ->
  (forall kvs first rest msg t,
     json_result r = Returns (PDict kvs) ->
     dict_lookup (text "choices") kvs = Some (PList (PDict first :: rest)) ->
     dict_lookup (text "message") first = Some (PDict msg) ->
     dict_lookup (text "content") msg = Some (PStr t) ->
     t <> [] ->
     query_huggingface prompt context w =
     (Returns (strip t), after_post (build_request key prompt context) w)) /\
  (json_result r = Returns (completion_body (PStr (text "  Hello  "))) ->
   query_huggingface prompt context w =
   (Returns (text "Hello"),
    after_post (build_request key prompt context) w)).
Proof.
  intros HK HT HR HS.
  assert (G : forall kvs first rest msg t,
     json_result r = Returns (PDict kvs) ->
     dict_lookup (text "choices") kvs = Some (PList (PDict first :: rest)) ->
     dict_lookup (text "message") first = Some (PDict msg) ->
     dict_lookup (text "content") msg = Some (PStr t) ->
     t <> [] ->
     query_huggingface prompt context w =
     (Returns (strip t), after_post (build_request key prompt context) w)).
  { intros kvs first rest msg t HJ HC HM HT' Hne.
    rewrite (query_decoded _ _ _ HK HT HR HS HJ).
    rewrite (extract_first_choice _ HC).
    unfold py_get. rewrite HM, HT'. unfold py_truthy, py_strip.
    destruct t as [|c t]; [congruence|]. reflexivity. }
  split; [exact G|].
  intros HJ.
  change (text "Hello") with (strip (text "  Hello  ")).
  eapply G; [exact HJ|reflexivity|reflexivity|reflexivity|discriminate].
Qed.

(** C6. On a successful answer whose first choice carries no completion
    text (no [message], or a [message] whose [content] is absent or the
    empty text), the client returns the fixed fallback text. *)
Theorem empty_completion_fallback
  (key prompt context : str) (w : world) (r : response)
  (kvs first : list (str * pyval)) (rest : list pyval) :
  HF_API_KEY = Some key -> str_truthy key = true ->
  endpoint w (posted w) (build_request key prompt context) = Returns r ->
  error_status (status_code r) = false ->
  json_result r = Returns (PDict kvs) ->
  dict_lookup (text "choices") kvs = Some (PList (PDict first :: rest)) ->
  no_completion_text first ->
  query_huggingface prompt context w =
  (Returns MSG_FALLBACK, after_post (build_request key prompt context) w).
Proof.
  intros HK HT HR HS HJ HC HN.
  rewrite (query_decoded _ _ _ HK HT HR HS HJ).
  rewrite (extract_first_choice _ HC). unfold py_get.
  destruct HN as [HM | (msg & HM & [HT' | HT'])]; rewrite HM.
  - reflexivity.
  - rewrite HT'. reflexivity.
  - rewrite HT'. reflexivity.
Qed.

(** C7 (amended). On a successful answer whose decoded body is an object
    without the key [choices] (or an array or a text in which the test
    for it fails), the client returns the warning text followed by the
    rendering of the decoded body. *)
Theorem missing_choices_warning
  (key prompt context : str) (w : world) (r : response) (body : pyval) :
  HF_API_KEY = Some key -> str_truthy key = true ->
  endpoint w (posted w) (build_request key prompt context) = Returns r ->
  error_status (status_code r) = false ->
  json_result r = Returns body ->
  lacks_choices body ->
  query_huggingface prompt context w =
  (Returns (msg_unexpected_format (py_str body)),
   after_post (build_request key prompt context) w).
Proof.
  intros HK HT HR HS HJ HL.
  rewrite (query_decoded _ _ _ HK HT HR HS HJ).
  unfold extract_response, py_in.
  destruct body; simpl in HL; try contradiction; rewrite HL; reflexivity.
Qed.

(* ===================================================================== *)
(** ** Request construction *)
(* ===================================================================== *)

Lemma filter_tagged_empty_context : filter tagged (split newline []) = [].
Proof. reflexivity. Qed.

(** The message sequence of a request: preamble, history, prompt. *)
Lemma build_messages_shape (prompt context : str) :
  build_messages prompt context =
  system_message :: history_of_context context ++ [Message user_role prompt].
Proof.
  unfold build_messages, history_of_context.
  change (Message (text "system") SYSTEM_PROMPT) with system_message.
  change (text "user") with user_role.
  destruct context as [|c context].
  - cbn [str_truthy]. rewrite filter_tagged_empty_context. reflexivity.
  - cbn [str_truthy]. rewrite fold_append_history. reflexivity.
Qed.

Lemma user_tag_nonempty : user_tag <> [].
Proof. discriminate. Qed.

Lemma assistant_tag_nonempty : assistant_tag <> [].
Proof. discriminate. Qed.

Lemma replace_leading (tok rest : str) :
  tok <> [] -> replace tok [] (tok ++ rest) = replace tok [] rest.
Proof.
  intros Htok.
  assert (Hrep : forall x, replace tok [] x = replace_from tok [] 0 x).
  { intros x. destruct tok; [congruence|reflexivity]. }
  rewrite !Hrep.
  pose proof (@replace_from_leftmost tok [] [] rest Htok) as H.
  cbn [app List.length] in H. apply H. intros i Hi. lia.
Qed.

Lemma assistant_line_not_user (rest : str) :
  startswith user_tag (assistant_tag ++ rest) = false.
Proof. reflexivity. Qed.


(* ===================================================================== *)
(** ** The conversation store and its window *)
(* ===================================================================== *)

Lemma window_skipn (n : nat) (store : list message) :
  window n store = skipn (List.length store - n) store.
Proof.
  unfold window. rewrite firstn_rev, rev_involutive. reflexivity.
Qed.

Lemma context_messages_window (store : list message) :
  context_messages_of store = window 6 store.
Proof.
  unfold context_messages_of. rewrite window_skipn.
  destruct (6 <? List.length store) eqn:E; [reflexivity|].
  apply Nat.ltb_ge in E.
  replace (List.length store - 6) with 0 by lia. reflexivity.
Qed.

Lemma window_length (n : nat) (store : list message) :
  List.length (window n store) = Nat.min n (List.length store).
Proof.
  unfold window. rewrite length_rev, length_firstn, length_rev. reflexivity.
Qed.

Lemma window_suffix (n : nat) (store : list message) :
  store = firstn (List.length store - n) store ++ window n store.
Proof. rewrite window_skipn, firstn_skipn. reflexivity. Qed.

Lemma window_all (n : nat) (store : list message) :
  List.length store <= n -> window n store = store.
Proof.
  intros H. rewrite window_skipn.
  replace (List.length store - n) with 0 by lia. reflexivity.
Qed.

Lemma window_snoc (n : nat) (store : list message) (m : message) :
  window (S n) (store ++ [m]) = window n store ++ [m].
Proof.
  unfold window. rewrite rev_app_distr. cbn [rev app firstn]. reflexivity.
Qed.

Lemma all_but_last_snoc {A} (l : list A) (x : A) :
  all_but_last (l ++ [x]) = l.
Proof.
  unfold all_but_last. rewrite length_app. cbn [List.length].
  replace (List.length l + 1 - 1) with (List.length l + 0) by lia.
  rewrite firstn_app_2. cbn [firstn]. apply app_nil_r.
Qed.

(** C1. When a prompt is answered, the context window is the last 6
    entries of the store (all of them when it holds 6 or fewer), in the
    order of the store; its last entry is the message being answered,
    and the history serialised into the context passed to the client is
    the window without that entry. *)
Theorem context_window_last_six
  (send_button : bool) (prompt : str) (w : world) :
  str_truthy prompt = true -> key_configured = true ->
  let current := Message user_role prompt in
  let store := st_messages w ++ [current] in
  let history := all_but_last (window 6 store) in
  context_messages_of store = window 6 store /\
  List.length (window 6 store) = Nat.min 6 (List.length store) /\
  (exists older, store = older ++ window 6 store) /\
  (List.length store <= 6 -> window 6 store = store) /\
  window 6 store = history ++ [current] /\
  history = window 5 (st_messages w) /\
  process_input send_button prompt w =
    match query_huggingface prompt (serialize history)
            (with_message current w) with
    | (Returns response, w') =>
        (Returns tt,
         with_context (serialize history)
           (with_message (Message assistant_role response) w'))
    | (Raises e, w') => (Raises e, w')
    end.
Proof.
  intros HP HK current store history.
  assert (Hh : history = window 5 (st_messages w)).
  { unfold history, store. rewrite window_snoc. apply all_but_last_snoc. }
  split; [apply context_messages_window|].
  split; [apply window_length|].
  split; [eexists; apply window_suffix|].
  split; [apply window_all|].
  split; [rewrite Hh; apply window_snoc|].
  split; [exact Hh|].
  unfold process_input. rewrite HP, HK, orb_true_r. cbn [andb].
  unfold bind, messages_append, get_messages.
  fold (with_message (Message (text "user") prompt) w).
  change (Message (text "user") prompt) with current.
  change (st_messages (with_message current w)) with store.
  rewrite context_messages_window. fold history.
  destruct (query_huggingface prompt (serialize history)
              (with_message current w)) as [[response|e] w'];
    reflexivity.
Qed.

(* ===================================================================== *)
(** ** Invariants of a session *)
(* ===================================================================== *)

Lemma build_request_system_first (key prompt context : str) :
  system_first (build_request key prompt context).
Proof.
  unfold system_first, build_request, build_payload.
  cbn [req_json messages]. rewrite build_messages_shape. reflexivity.
Qed.

(** What a call of the client does to the world. *)
Lemma query_world (prompt context : str) (w : world) :
  snd (query_huggingface prompt context w) = w \/
  exists key,
    snd (query_huggingface prompt context w) =
    after_post (build_request key prompt context) w.
Proof.
  unfold query_huggingface. destruct HF_API_KEY as [key|].
  - destruct (negb (str_truthy key)).
    + left. reflexivity.
    + right. exists key. apply try_except_world.
  - left. reflexivity.
Qed.

Lemma query_invariant (prompt context : str) (w : world) :
  session_invariant w ->
  session_invariant (snd (query_huggingface prompt context w)).
Proof.
  intros [HM HP].
  destruct (query_world prompt context w) as [-> | [key ->]].
  - split; assumption.
  - split; [exact HM|]. cbn [posted after_post].
    apply Forall_app. split; [exact HP|].
    constructor; [apply build_request_system_first|constructor].
Qed.

Lemma with_message_invariant (m : message) (w : world) :
  stored_role m -> session_invariant w ->
  session_invariant (with_message m w).
Proof.
  intros Hm [HM HP]. split; [|exact HP].
  cbn [st_messages with_message]. apply Forall_app. split; [exact HM|].
  constructor; [exact Hm|constructor].
Qed.

Lemma process_input_invariant (send_button : bool) (prompt : str) (w : world) :
  session_invariant w ->
  session_invariant (snd (process_input send_button prompt w)).
Proof.
  intros Hw. unfold process_input.
  destruct ((send_button || str_truthy prompt) && str_truthy prompt
            && key_configured); [|exact Hw].
  unfold bind, messages_append, get_messages.
  fold (with_message (Message (text "user") prompt) w).
  set (w1 := with_message (Message (text "user") prompt) w).
  assert (H1 : session_invariant w1).
  { apply with_message_invariant; [left; reflexivity|exact Hw]. }
  set (context := serialize (all_but_last (context_messages_of (st_messages w1)))).
  pose proof (query_invariant prompt context H1) as H2.
  destruct (query_huggingface prompt context w1) as [[response|e] w2];
    cbn [snd] in H2 |- *; [|exact H2].
  fold (with_message (Message (text "assistant") response) w2).
  unfold set_conversation_context. cbn [snd].
  pose proof (@with_message_invariant
                (Message (text "assistant") response) w2
                (or_intror eq_refl) H2) as [HM HP].
  split; assumption.
Qed.

Lemma run_script_invariant (ui : widgets) (w : world) :
  session_invariant w -> session_invariant (snd (run_script ui w)).
Proof.
  intros Hw. unfold run_script. destruct (clear_clicked ui).
  - destruct Hw as [_ HP]. split; [constructor|exact HP].
  - apply process_input_invariant. exact Hw.
Qed.

Lemma run_session_invariant (runs : list widgets) (w : world) :
  session_invariant w -> session_invariant (snd (run_session runs w)).
Proof.
  revert w. induction runs as [|ui runs IH]; intros w Hw; [exact Hw|].
  cbn [run_session]. unfold bind.
  pose proof (run_script_invariant ui Hw) as H1.
  destruct (run_script ui w) as [[u|e] w1]; cbn [snd] in H1 |- *.
  - apply IH. exact H1.
  - exact H1.
Qed.

Lemma stored_role_not_system (m : message) :
  stored_role m -> role m <> system_role.
Proof. intros [H|H]; rewrite H; discriminate. Qed.

(** C8. Every request the client builds has the fixed system preamble at
    position 0 of its message sequence, and so has every request posted
    during a session; the store of a session, started empty, only ever
    holds entries of role user or assistant, never of role system. *)
Theorem system_preamble_first_never_stored :
  (forall key prompt context,
     nth_error (messages (req_json (build_request key prompt context))) 0
     = Some system_message) /\
  (forall runs ep,
     let w := snd (run_session runs (initial_world ep)) in
     Forall system_first (posted w) /\
     Forall stored_role (st_messages w) /\
     Forall (fun m => role m <> system_role) (st_messages w)).
Proof.
  split; [apply build_request_system_first|].
  intros runs ep w.
  assert (H : session_invariant w).
  { apply run_session_invariant. split; constructor. }
  destruct H as [HM HP]. repeat split; [exact HP|exact HM|].
  eapply Forall_impl; [|exact HM]. apply stored_role_not_system.
Qed.


(* ===================================================================== *)
(** ** The handlers and the reading of the body *)
(* ===================================================================== *)

Lemma handle_exception_text (e : exn) (w : world) :
  handle_exception e w = (Returns (exception_text e), w).
Proof.
  unfold handle_exception, exception_text, request_error_text.
  destruct e as [msg|f|msg]; try reflexivity.
  cbn [exn_str].
  destruct (contains (text "401") msg); [reflexivity|].
  destruct (contains (text "404") msg); reflexivity.
Qed.

Lemma raise_for_status_message (r : response) :
  error_status (status_code r) = true ->
  raise_for_status r = Raises (RequestException (http_error_message r)).
Proof.
  unfold error_status, raise_for_status, http_error_message. intros H.
  apply andb_true_iff in H as [A B].
  apply Z.leb_le in A. apply Z.ltb_lt in B.
  destruct (status_code r <? 500)%Z eqn:E.
  - replace (400 <=? status_code r)%Z with true
      by (symmetry; apply Z.leb_le; lia).
    cbn [andb]. rewrite str_truthy_app_r; reflexivity.
  - apply Z.ltb_ge in E.
    rewrite andb_false_r.
    replace (500 <=? status_code r)%Z with true
      by (symmetry; apply Z.leb_le; lia).
    replace (status_code r <? 600)%Z with true
      by (symmetry; apply Z.ltb_lt; lia).
    cbn [andb]. rewrite str_truthy_app_r; reflexivity.
Qed.

Lemma startswith_app_r (p s t : str) :
  startswith p s = true -> startswith p (s ++ t) = true.
Proof.
  revert s. induction p as [|a p IH]; intros s H; [reflexivity|].
  destruct s as [|c s]; [discriminate|].
  cbn [startswith app] in *. apply andb_true_iff in H as [H1 H2].
  rewrite H1, (IH _ H2). reflexivity.
Qed.

Lemma contains_app_l (p s t : str) :
  contains p s = true -> contains p (s ++ t) = true.
Proof.
  induction s as [|c s IH]; intros H.
  - cbn [contains] in H. rewrite orb_false_r in H.
    destruct p; [|discriminate]. destruct t; reflexivity.
  - rewrite contains_cons in H. cbn [app]. rewrite contains_cons.
    apply orb_true_iff in H as [H|H].
    + change (c :: s ++ t) with ((c :: s) ++ t).
      rewrite (startswith_app_r _ _ t H). reflexivity.
    + rewrite (IH H). apply orb_true_r.
Qed.

Lemma contains_app_r (p s t : str) :
  contains p t = true -> contains p (s ++ t) = true.
Proof.
  intros H. induction s as [|c s IH]; [exact H|].
  cbn [app]. rewrite contains_cons, IH. apply orb_true_r.
Qed.

(** The client when the call itself raises. *)
Lemma query_call_raises (key prompt context : str) (w : world) (e : exn) :
  HF_API_KEY = Some key -> str_truthy key = true ->
  endpoint w (posted w) (build_request key prompt context) = Raises e ->
  query_huggingface prompt context w =
  (Returns (exception_text e),
   after_post (build_request key prompt context) w).
Proof.
  intros HK HT HR. rewrite (query_with_key _ _ _ HK HT). unfold try_except.
  rewrite (try_body_raises _ _ HR). apply handle_exception_text.
Qed.

(** The client on an answer with an error status outside the three
    special ones. *)
Lemma query_http_error (key prompt context : str) (w : world) (r : response) :
  HF_API_KEY = Some key -> str_truthy key = true ->
  endpoint w (posted w) (build_request key prompt context) = Returns r ->
  error_status (status_code r) = true ->
  status_code r <> 401%Z -> status_code r <> 429%Z ->
  status_code r <> 503%Z ->
  query_huggingface prompt context w =
  (Returns (request_error_text (http_error_message r)),
   after_post (build_request key prompt context) w).
Proof.
  intros HK HT HR HS H401 H429 H503.
  rewrite (query_with_key _ _ _ HK HT). unfold try_except.
  rewrite (try_body_response _ _ HR).
  apply Z.eqb_neq in H401, H429, H503. rewrite H401, H429, H503.
  rewrite (raise_for_status_message _ HS).
  apply (handle_exception_text (RequestException (http_error_message r))).
Qed.

(** X1. When the call of [requests.post] raises (no connection, timeout,
    or any other exception), one call has been made and the client
    returns the text of the handlers: for a [RequestException] the
    authentication text if its message contains "401", else the
    model-not-found text if it contains "404", else the connection-error
    text with the message; for any other exception the unexpected-error
    text with its message. *)
Theorem failed_call_reported
  (key prompt context : str) (w : world) (e : exn) :
  HF_API_KEY = Some key -> str_truthy key = true ->
  endpoint w (posted w) (build_request key prompt context) = Raises e ->
  query_huggingface prompt context w =
  (Returns
     match e with
     | RequestException msg =>
         if contains (text "401") msg then MSG_AUTH_FAILED
         else if contains (text "404") msg
         then msg_model_not_found MODEL_NAME
         else msg_connection_error msg
     | _ => msg_unexpected_error (exn_str e)
     end,
   after_post (build_request key prompt context) w).
Proof.
  intros HK HT HR. rewrite (query_call_raises _ _ _ HK HT HR).
  destruct e; reflexivity.
Qed.

(** X2. When an answer passes the status checks but its body does not
    decode ([response.json()] raises), the exception is handled in the
    same way: the text of the first handler for requests' decoding
    error, the unexpected-error text for any other exception. *)
Theorem undecodable_body_reported
  (key prompt context : str) (w : world) (r : response) (e : exn) :
  HF_API_KEY = Some key -> str_truthy key = true ->
  endpoint w (posted w) (build_request key prompt context) = Returns r ->
  error_status (status_code r) = false ->
  json_result r = Raises e ->
  query_huggingface prompt context w =
  (Returns
     match e with
     | RequestException msg => request_error_text msg
     | _ => msg_unexpected_error (exn_str e)
     end,
   after_post (build_request key prompt context) w).
Proof.
  intros HK HT HR HS HJ.
  rewrite (query_with_key _ _ _ HK HT). unfold try_except.
  rewrite (try_body_response _ _ HR).
  destruct (status_not_special _ HS) as (-> & -> & ->).
  rewrite (raise_for_status_ok _ HS), HJ.
  apply handle_exception_text.
Qed.

(** X3. An answer with status 404 is never reported as a connection
    error: the message of its [HTTPError] starts with "404", so the text
    is the model-not-found text (the authentication text if the message
    also contains "401", in the reason or the URL). *)
Theorem not_found_reported_as_model_error
  (key prompt context : str) (w : world) (r : response) :
  HF_API_KEY = Some key -> str_truthy key = true ->
  endpoint w (posted w) (build_request key prompt context) = Returns r ->
  status_code r = 404%Z ->
  contains (text "404") (http_error_message r) = true /\
  query_huggingface prompt context w =
  (Returns (if contains (text "401") (http_error_message r)
            then MSG_AUTH_FAILED
            else msg_model_not_found MODEL_NAME),
   after_post (build_request key prompt context) w).
Proof.
  intros HK HT HR HS.
  assert (HC : contains (text "404") (http_error_message r) = true).
  { unfold http_error_message. rewrite HS.
    apply contains_app_l. reflexivity. }
  split; [exact HC|].
  rewrite (query_http_error _ _ _ HK HT HR); try (rewrite HS; discriminate).
  - unfold request_error_text. rewrite HC. reflexivity.
  - rewrite HS. reflexivity.
Qed.

(** X4. The handler looks for "401" and "404" in the whole message, the
    URL included: an error answer of any other status (say 500) from an
    endpoint whose URL contains "404" or "401" is reported as a missing
    model or a failed authentication, never as a connection error. *)
Theorem digits_in_url_misreport
  (key prompt context : str) (w : world) (r : response) :
  HF_API_KEY = Some key -> str_truthy key = true ->
  endpoint w (posted w) (build_request key prompt context) = Returns r ->
  error_status (status_code r) = true ->
  status_code r <> 401%Z -> status_code r <> 429%Z ->
  status_code r <> 503%Z ->
  contains (text "401") (url r) = true \/
  contains (text "404") (url r) = true ->
  fst (query_huggingface prompt context w) = Returns MSG_AUTH_FAILED \/
  fst (query_huggingface prompt context w)
  = Returns (msg_model_not_found MODEL_NAME).
Proof.
  intros HK HT HR HS H401 H429 H503 HU.
  assert (HM : forall p, contains p (url r) = true ->
                         contains p (http_error_message r) = true).
  { intros p Hp. unfold http_error_message.
    do 4 apply contains_app_r. exact Hp. }
  rewrite (query_http_error _ _ _ HK HT HR HS H401 H429 H503).
  cbn [fst]. unfold request_error_text.
  destruct (contains (text "401") (http_error_message r)) eqn:E1;
    [left; reflexivity|].
  right. destruct HU as [HU|HU].
  - rewrite (HM _ HU) in E1. discriminate.
  - rewrite (HM _ HU). reflexivity.
Qed.

(** The client on an answer that passes the status checks and decodes:
    the text read from the body, or the text for the exception of the
    reading. *)
Lemma query_decoded_text
  (key prompt context : str) (w : world) (r : response) (body : pyval) :
  HF_API_KEY = Some key -> str_truthy key = true ->
  endpoint w (posted w) (build_request key prompt context) = Returns r ->
  error_status (status_code r) = false ->
  json_result r = Returns body ->
  query_huggingface prompt context w =
  (Returns match extract_response body with
           | Returns s => s
           | Raises e => exception_text e
           end,
   after_post (build_request key prompt context) w).
Proof.
  intros HK HT HR HS HJ.
  rewrite (query_decoded _ _ _ HK HT HR HS HJ).
  destruct (extract_response body); [reflexivity|].
  apply handle_exception_text.
Qed.

(** The reading of a body with a non-empty list of choices. *)
Lemma extract_choice_list
  (kvs : list (str * pyval)) (first : pyval) (rest : list pyval) :
  dict_lookup (text "choices") kvs = Some (PList (first :: rest)) ->
  extract_response (PDict kvs) =
  match py_get first (text "message") (PDict []) with
  | Raises e => Raises e
  | Returns msg =>
      match py_get msg (text "content") (PStr []) with
      | Raises e => Raises e
      | Returns message_content =>
          if py_truthy message_content
          then py_strip message_content
          else Returns MSG_FALLBACK
      end
  end.
Proof.
  intros H. unfold extract_response, py_in, py_getitem_str.
  rewrite H. unfold py_len.
  replace (0 <? Z.of_nat (List.length (first :: rest)))%Z with true
    by (symmetry; apply Z.ltb_lt; simpl List.length; lia).
  unfold py_getitem_int.
  replace (0 <? 0)%Z with false by reflexivity.
  replace ((0 <=? 0) && (0 <? Z.of_nat (List.length (first :: rest))))%Z
    with true
    by (symmetry; apply andb_true_iff; split;
        [reflexivity | apply Z.ltb_lt; simpl List.length; lia]).
  reflexivity.
Qed.

Lemma lstrip_all_space (t : str) :
  Forall (fun c => isspace c = true) t -> lstrip t = [].
Proof.
  induction 1 as [|c t Hc _ IH]; [reflexivity|].
  cbn [lstrip]. rewrite Hc. exact IH.
Qed.

Lemma strip_all_space (t : str) :
  Forall (fun c => isspace c = true) t -> strip t = [].
Proof.
  intros H. unfold strip. rewrite (lstrip_all_space H). reflexivity.
Qed.

(** X5. A body whose [choices] is present but empty (an empty list, and
    also an empty text or an empty object) is treated like a body
    without [choices]: the warning text with the decoded body. *)
Theorem empty_choices_warning
  (key prompt context : str) (w : world) (r : response)
  (kvs : list (str * pyval)) (choices : pyval) :
  HF_API_KEY = Some key -> str_truthy key = true ->
  endpoint w (posted w) (build_request key prompt context) = Returns r ->
  error_status (status_code r) = false ->
  json_result r = Returns (PDict kvs) ->
  dict_lookup (text "choices") kvs = Some choices ->
  py_len choices = Returns 0%Z ->
  query_huggingface prompt context w =
  (Returns (msg_unexpected_format (py_str (PDict kvs))),
   after_post (build_request key prompt context) w).
Proof.
  intros HK HT HR HS HJ HC HL.
  rewrite (query_decoded_text _ _ _ HK HT HR HS HJ).
  unfold extract_response, py_in, py_getitem_str. rewrite HC, HL.
  reflexivity.
Qed.

(** X6. Any falsy content gives the fallback text, not only the empty
    text: [null], [false], [0], [0.0], an empty list, an empty object. *)
Theorem falsy_content_fallback
  (key prompt context : str) (w : world) (r : response)
  (kvs first msg : list (str * pyval)) (rest : list pyval) (v : pyval) :
  HF_API_KEY = Some key -> str_truthy key = true ->
  endpoint w (posted w) (build_request key prompt context) = Returns r ->
  error_status (status_code r) = false ->
  json_result r = Returns (PDict kvs) ->
  dict_lookup (text "choices") kvs = Some (PList (PDict first :: rest)) ->
  dict_lookup (text "message") first = Some (PDict msg) ->
  dict_lookup (text "content") msg = Some v ->
  py_truthy v = false ->
  query_huggingface prompt context w =
  (Returns MSG_FALLBACK, after_post (build_request key prompt context) w).
Proof.
  intros HK HT HR HS HJ HC HM HV HF.
  rewrite (query_decoded_text _ _ _ HK HT HR HS HJ).
  rewrite (extract_choice_list _ HC). unfold py_get.
  rewrite HM, HV, HF. reflexivity.
Qed.

(** X7. A content made of whitespace only is not empty, so it passes the
    test of line 191, and the client returns its stripped form: the
    empty text, not the fallback text. *)
Theorem blank_content_empty_reply
  (key prompt context : str) (w : world) (r : response)
  (kvs first msg : list (str * pyval)) (rest : list pyval) (t : str) :
  HF_API_KEY = Some key -> str_truthy key = true ->
  endpoint w (posted w) (build_request key prompt context) = Returns r ->
  error_status (status_code r) = false ->
  json_result r = Returns (PDict kvs) ->
  dict_lookup (text "choices") kvs = Some (PList (PDict first :: rest)) ->
  dict_lookup (text "message") first = Some (PDict msg) ->
  dict_lookup (text "content") msg = Some (PStr t) ->
  t <> [] -> Forall (fun c => isspace c = true) t ->
  query_huggingface prompt context w =
  (Returns [], after_post (build_request key prompt context) w).
Proof.
  intros HK HT HR HS HJ HC HM HV Hne Hsp.
  rewrite (query_decoded_text _ _ _ HK HT HR HS HJ).
  rewrite (extract_choice_list _ HC). unfold py_get.
  rewrite HM, HV. unfold py_truthy, py_strip.
  destruct t as [|c t]; [congruence|].
  cbn [str_truthy]. rewrite (strip_all_space Hsp). reflexivity.
Qed.

(** X8. A truthy content that is not a text (a number, [true], a
    non-empty list or object) has no [strip]: the AttributeError is
    caught by the second handler and the client returns the
    unexpected-error text with the interpreter's message. *)
Theorem non_text_content_reported
  (key prompt context : str) (w : world) (r : response)
  (kvs first msg : list (str * pyval)) (rest : list pyval) (v : pyval) :
  HF_API_KEY = Some key -> str_truthy key = true ->
  endpoint w (posted w) (build_request key prompt context) = Returns r ->
  error_status (status_code r) = false ->
  json_result r = Returns (PDict kvs) ->
  dict_lookup (text "choices") kvs = Some (PList (PDict first :: rest)) ->
  dict_lookup (text "message") first = Some (PDict msg) ->
  dict_lookup (text "content") msg = Some v ->
  py_truthy v = true -> (forall t, v <> PStr t) ->
  query_huggingface prompt context w =
  (Returns (msg_unexpected_error
              (fault_text (NoAttribute v (text "strip")))),
   after_post (build_request key prompt context) w).
Proof.
  intros HK HT HR HS HJ HC HM HV HTr Hns.
  rewrite (query_decoded_text _ _ _ HK HT HR HS HJ).
  rewrite (extract_choice_list _ HC). unfold py_get.
  rewrite HM, HV, HTr. unfold py_strip.
  destruct v; try reflexivity. exfalso. eapply Hns. reflexivity.
Qed.

(** X9. A first choice that is not an object (a text, a number, a list,
    [null]) has no [get]: the client returns the unexpected-error text
    with the interpreter's message. *)
Theorem non_object_choice_reported
  (key prompt context : str) (w : world) (r : response)
  (kvs : list (str * pyval)) (first : pyval) (rest : list pyval) :
  HF_API_KEY = Some key -> str_truthy key = true ->
  endpoint w (posted w) (build_request key prompt context) = Returns r ->
  error_status (status_code r) = false ->
  json_result r = Returns (PDict kvs) ->
  dict_lookup (text "choices") kvs = Some (PList (first :: rest)) ->
  (forall d, first <> PDict d) ->
  query_huggingface prompt context w =
  (Returns (msg_unexpected_error
              (fault_text (NoAttribute first (text "get")))),
   after_post (build_request key prompt context) w).
Proof.
  intros HK HT HR HS HJ HC Hno.
  rewrite (query_decoded_text _ _ _ HK HT HR HS HJ).
  rewrite (extract_choice_list _ HC). unfold py_get.
  destruct first; try reflexivity. exfalso. eapply Hno. reflexivity.
Qed.

(** X10. A [choices] that has no length (a number, a boolean, [null])
    makes [len] raise: the client returns the unexpected-error text with
    the interpreter's message. *)
Theorem unsized_choices_reported
  (key prompt context : str) (w : world) (r : response)
  (kvs : list (str * pyval)) (choices : pyval) :
  HF_API_KEY = Some key -> str_truthy key = true ->
  endpoint w (posted w) (build_request key prompt context) = Returns r ->
  error_status (status_code r) = false ->
  json_result r = Returns (PDict kvs) ->
  dict_lookup (text "choices") kvs = Some choices ->
  (forall n, py_len choices <> Returns n) ->
  query_huggingface prompt context w =
  (Returns (msg_unexpected_error (fault_text (NoLength choices))),
   after_post (build_request key prompt context) w).
Proof.
  intros HK HT HR HS HJ HC HL.
  rewrite (query_decoded_text _ _ _ HK HT HR HS HJ).
  unfold extract_response, py_in, py_getitem_str. rewrite HC.
  destruct choices; try reflexivity; exfalso; eapply HL; reflexivity.
Qed.

(* ===================================================================== *)
(** ** The context, written and read back *)
(* ===================================================================== *)

Lemma split_nonempty (sep : char) (s : str) : split sep s <> [].
Proof.
  destruct s as [|c s]; cbn [split]; [discriminate|].
  destruct (char_eqb c sep); [discriminate|].
  destruct (split sep s); discriminate.
Qed.

(** Splitting distributes over a separator. *)
Lemma split_app (sep : char) (x y : str) :
  split sep (x ++ sep :: y) = split sep x ++ split sep y.
Proof.
  induction x as [|c x IH]; cbn [app split].
  - rewrite char_eqb_refl. reflexivity.
  - destruct (char_eqb c sep); [rewrite IH; reflexivity|].
    rewrite IH. pose proof (split_nonempty sep x) as Hne.
    destruct (split sep x) as [|l ls]; [congruence|reflexivity].
Qed.

Lemma split_no_sep (sep : char) (a : str) :
  ~ In sep a -> split sep a = [a].
Proof.
  induction a as [|c a IH]; intros H; [reflexivity|].
  cbn [split]. destruct (char_eqb c sep) eqn:E.
  - apply char_eqb_eq in E. exfalso. apply H. left. exact E.
  - rewrite IH; [reflexivity|]. intros Hin. apply H. right. exact Hin.
Qed.

Lemma join_cons (sep p : str) (ps : list str) :
  ps <> [] -> join sep (p :: ps) = p ++ sep ++ join sep ps.
Proof. destruct ps; [congruence|reflexivity]. Qed.

(** Lines without a newline come back from the joined text. *)
Lemma split_join (sep : char) (parts : list str) :
  parts <> [] -> Forall (fun p => ~ In sep p) parts ->
  split sep (join [sep] parts) = parts.
Proof.
  induction parts as [|p ps IH]; intros Hne HF; [congruence|].
  inversion HF as [|? ? Hp Hps]; subst.
  destruct ps as [|q ps].
  - cbn [join]. apply split_no_sep. exact Hp.
  - rewrite join_cons by discriminate.
    cbn [app]. rewrite split_app, (@split_no_sep sep p Hp).
    rewrite IH; [reflexivity|discriminate|exact Hps].
Qed.

Lemma entry_of_user_line (rest : str) :
  entry_of_line (user_tag ++ rest) =
  Message user_role (strip (replace user_tag [] rest)).
Proof.
  unfold entry_of_line. rewrite startswith_app.
  rewrite (replace_leading _ user_tag_nonempty). reflexivity.
Qed.

Lemma entry_of_assistant_line (rest : str) :
  entry_of_line (assistant_tag ++ rest) =
  Message assistant_role (strip (replace assistant_tag [] rest)).
Proof.
  unfold entry_of_line. rewrite assistant_line_not_user.
  rewrite (replace_leading _ assistant_tag_nonempty). reflexivity.
Qed.

Lemma replace_absent (tok s : str) :
  tok <> [] -> contains tok s = false -> replace tok [] s = s.
Proof.
  intros Htok H. destruct tok; [congruence|].
  apply replace_from_absent. exact H.
Qed.

Lemma format_user_message (c : str) :
  format_message (Message user_role c) = user_tag ++ 32%N :: c.
Proof. reflexivity. Qed.

Lemma format_assistant_message (c : str) :
  format_message (Message assistant_role c) = assistant_tag ++ 32%N :: c.
Proof. reflexivity. Qed.

Lemma strip_leading_space (c : str) : strip (32%N :: c) = strip c.
Proof. reflexivity. Qed.

Lemma tagged_user_line (rest : str) : tagged (user_tag ++ rest) = true.
Proof. unfold tagged. rewrite startswith_app. reflexivity. Qed.

Lemma tagged_assistant_line (rest : str) :
  tagged (assistant_tag ++ rest) = true.
Proof. unfold tagged. rewrite startswith_app. apply orb_true_r. Qed.

(** The line of a clean message is tagged, has no newline, and is read
    back as the message. *)
Lemma clean_message_line (m : message) :
  clean_message m ->
  tagged (format_message m) = true /\
  ~ In newline (format_message m) /\
  entry_of_line (format_message m) = m.
Proof.
  destruct m as [r c]. unfold clean_message. cbn [role content].
  intros ([[-> Htag] | [-> Htag]] & Hnl & Hstrip).
  - rewrite format_user_message. split; [apply tagged_user_line|]. split.
    + intros Hin. apply in_app_or in Hin as [Hin|[Hin|Hin]].
      * vm_compute in Hin. intuition discriminate.
      * discriminate.
      * exact (Hnl Hin).
    + rewrite entry_of_user_line.
      rewrite (@replace_absent user_tag (32%N :: c) user_tag_nonempty).
      * rewrite strip_leading_space, Hstrip. reflexivity.
      * rewrite contains_cons, Htag. reflexivity.
  - rewrite format_assistant_message.
    split; [apply tagged_assistant_line|]. split.
    + intros Hin. apply in_app_or in Hin as [Hin|[Hin|Hin]].
      * vm_compute in Hin. intuition discriminate.
      * discriminate.
      * exact (Hnl Hin).
    + rewrite entry_of_assistant_line.
      rewrite (@replace_absent assistant_tag (32%N :: c) assistant_tag_nonempty).
      * rewrite strip_leading_space, Hstrip. reflexivity.
      * rewrite contains_cons, Htag. reflexivity.
Qed.

Lemma filter_all {A} (f : A -> bool) (l : list A) :
  Forall (fun x => f x = true) l -> filter f l = l.
Proof.
  induction 1 as [|x l Hx _ IH]; [reflexivity|].
  cbn [filter]. rewrite Hx, IH. reflexivity.
Qed.

(** A history of clean messages survives the passage through the
    context. *)
Lemma history_roundtrip (history : list message) :
  Forall clean_message history ->
  history_of_context (serialize history) = history.
Proof.
  intros HF. unfold history_of_context, serialize.
  destruct history as [|m history].
  - reflexivity.
  - rewrite split_join.
    + rewrite filter_all.
      * rewrite map_map.
        rewrite <- (map_id (m :: history)) at 2.
        apply map_ext_in. intros x Hx.
        rewrite Forall_forall in HF. apply clean_message_line, HF, Hx.
      * apply Forall_map. eapply Forall_impl; [|exact HF].
        intros x Hx. apply clean_message_line, Hx.
    + discriminate.
    + apply Forall_map. eapply Forall_impl; [|exact HF].
      intros x Hx. apply clean_message_line, Hx.
Qed.

Lemma history_stored_roles (context : str) :
  Forall stored_role (history_of_context context).
Proof.
  unfold history_of_context. apply Forall_map.
  apply Forall_forall. intros line _. unfold entry_of_line, stored_role.
  destruct (startswith user_tag line); [left|right]; reflexivity.
Qed.

(** X11. Whatever the prompt and the context say, a request holds
    exactly one message of role system, the preamble at position 0: the
    entries behind it have role user or assistant, and the last one is
    the prompt, as it was typed. A line of the context such as
    "System: ..." adds nothing. *)
Theorem request_single_system_message (prompt context : str) :
  nth_error (build_messages prompt context) 0 = Some system_message /\
  last (build_messages prompt context) system_message
  = Message user_role prompt /\
  Forall stored_role (tl (build_messages prompt context)) /\
  Forall (fun m => role m <> system_role) (tl (build_messages prompt context)).
Proof.
  rewrite build_messages_shape. cbn [nth_error tl].
  assert (HF : Forall stored_role
                 (history_of_context context
                  ++ [Message user_role prompt])).
  { apply Forall_app. split; [apply history_stored_roles|].
    constructor; [left; reflexivity|constructor]. }
  split; [reflexivity|]. split.
  - change (system_message :: history_of_context context
            ++ [Message user_role prompt])
      with ((system_message :: history_of_context context)
            ++ [Message user_role prompt]).
    apply last_last.
  - split; [exact HF|].
    eapply Forall_impl; [|exact HF]. apply stored_role_not_system.
Qed.

(** X12. Round trip of the history: messages of role user or assistant
    whose content is on one line, does not contain the tag of its role
    and has no surrounding whitespace are read back from the serialised
    context exactly as they were, and the request is the preamble, these
    messages and the prompt. *)
Theorem clean_history_roundtrip (prompt : str) (history : list message) :
  Forall clean_message history ->
  history_of_context (serialize history) = history /\
  build_messages prompt (serialize history) =
  system_message :: history ++ [Message user_role prompt].
Proof.
  intros HF. split; [apply history_roundtrip; exact HF|].
  rewrite build_messages_shape, (history_roundtrip HF). reflexivity.
Qed.

(** X13. A stored message of several lines is cut at its first line, and
    a later line that starts with the tag of the other role comes back as
    an entry of that role: a user message "c1 / Assistant: c2" is read
    back as a user entry and an assistant entry. *)
Theorem embedded_tag_forges_entry (c1 c2 : str) :
  ~ In newline c1 -> ~ In newline c2 ->
  history_of_context
    (serialize [Message user_role (c1 ++ newline :: assistant_tag ++ c2)])
  = [Message user_role (strip (replace user_tag [] (32%N :: c1)));
     Message assistant_role (strip (replace assistant_tag [] c2))].
Proof.
  intros H1 H2. unfold history_of_context, serialize.
  cbn [map join]. rewrite format_user_message.
  replace (user_tag ++ 32%N :: c1 ++ newline :: assistant_tag ++ c2)
    with ((user_tag ++ 32%N :: c1) ++ newline :: assistant_tag ++ c2)
    by (rewrite <- app_assoc; reflexivity).
  rewrite split_app.
  rewrite (@split_no_sep newline (user_tag ++ 32%N :: c1)).
  - rewrite (@split_no_sep newline (assistant_tag ++ c2)).
    + cbn [app filter]. rewrite tagged_user_line, tagged_assistant_line.
      cbn [map]. rewrite entry_of_user_line, entry_of_assistant_line.
      reflexivity.
    + intros Hin. apply in_app_or in Hin as [Hin|Hin].
      * vm_compute in Hin. intuition discriminate.
      * exact (H2 Hin).
  - intros Hin. apply in_app_or in Hin as [Hin|[Hin|Hin]].
    + vm_compute in Hin. intuition discriminate.
    + discriminate.
    + exact (H1 Hin).
Qed.

(* ===================================================================== *)
(** ** Sends, clears and sessions *)
(* ===================================================================== *)

Lemma key_configured_some :
  key_configured = true ->
  exists key, HF_API_KEY = Some key /\ str_truthy key = true.
Proof.
  unfold key_configured. destruct HF_API_KEY as [key|]; [|discriminate].
  intros H. exists key. split; [reflexivity|exact H].
Qed.

Lemma key_configured_of (key : str) :
  HF_API_KEY = Some key -> str_truthy key = true -> key_configured = true.
Proof. unfold key_configured. intros -> H. exact H. Qed.

(** With a credential the client returns a text after one call. *)
Lemma query_returns (key prompt context : str) (w : world) :
  HF_API_KEY = Some key -> str_truthy key = true ->
  exists s,
    query_huggingface prompt context w =
    (Returns s, after_post (build_request key prompt context) w).
Proof.
  intros HK HT. rewrite (query_with_key _ _ _ HK HT). unfold try_except.
  pose proof (try_body_world (build_request key prompt context) w) as Hw.
  destruct (try_body (build_request key prompt context) w) as [[s|e] w'];
    cbn [snd] in Hw; subst w'.
  - exists s. reflexivity.
  - exists (exception_text e). apply handle_exception_text.
Qed.

(** A send that is processed. *)
Lemma process_input_send
  (send_button : bool) (key prompt : str) (w : world) :
  str_truthy prompt = true ->
  HF_API_KEY = Some key -> str_truthy key = true ->
  exists response,
    process_input send_button prompt w =
    (Returns tt, after_send key prompt response w).
Proof.
  intros HP HK HT.
  unfold process_input.
  rewrite HP, (key_configured_of HK HT), orb_true_r. cbn [andb].
  unfold bind, messages_append, get_messages.
  fold (with_message (Message (text "user") prompt) w).
  change (text "user") with user_role.
  change (st_messages (with_message (Message user_role prompt) w))
    with (st_messages w ++ [Message user_role prompt]).
  fold (sent_context prompt w).
  destruct (query_returns prompt (sent_context prompt w)
              (with_message (Message user_role prompt) w) HK HT)
    as [response ->].
  exists response. unfold after_send, set_conversation_context.
  cbn [st_messages st_conversation_context endpoint posted after_post
       with_message].
  rewrite <- app_assoc. reflexivity.
Qed.

(** An input that is not processed. *)
Lemma process_input_skip (send_button : bool) (prompt : str) (w : world) :
  prompt = [] \/ key_configured = false ->
  process_input send_button prompt w = (Returns tt, w).
Proof.
  unfold process_input. intros [-> | ->].
  - cbn [str_truthy]. rewrite andb_false_r. reflexivity.
  - rewrite andb_false_r. reflexivity.
Qed.

(** What a run does to the world. *)
Lemma process_input_cases (send_button : bool) (prompt : str) (w : world) :
  process_input send_button prompt w = (Returns tt, w) \/
  exists key response,
    HF_API_KEY = Some key /\ str_truthy key = true /\
    process_input send_button prompt w =
    (Returns tt, after_send key prompt response w).
Proof.
  destruct prompt as [|c prompt];
    [left; apply process_input_skip; left; reflexivity|].
  destruct key_configured eqn:E;
    [|left; apply process_input_skip; right; exact E].
  destruct (key_configured_some E) as (key & HK & HT).
  right. exists key.
  destruct (@process_input_send send_button key (c :: prompt) w eq_refl HK HT)
    as [response H].
  exists response. repeat split; assumption.
Qed.

Lemma run_script_cases (ui : widgets) (w : world) :
  run_script ui w = (Returns tt, w) \/
  run_script ui w =
    (Returns tt,
     {| st_messages := []; st_conversation_context := [];
        endpoint := endpoint w; posted := posted w |}) \/
  exists key response,
    HF_API_KEY = Some key /\ str_truthy key = true /\
    run_script ui w =
    (Returns tt, after_send key (text_input ui) response w).
Proof.
  unfold run_script. destruct (clear_clicked ui).
  - right. left. reflexivity.
  - destruct (process_input_cases (send_clicked ui) (text_input ui) w)
      as [H | H]; [left|right; right]; exact H.
Qed.

(** An invariant of the world that every kind of run keeps holds
    throughout a session. *)
Lemma session_induction (P : world -> Prop) :
  (forall w, P w ->
     P {| st_messages := []; st_conversation_context := [];
          endpoint := endpoint w; posted := posted w |}) ->
  (forall w key prompt response,
     HF_API_KEY = Some key -> str_truthy key = true ->
     P w -> P (after_send key prompt response w)) ->
  forall runs w, P w -> P (snd (run_session runs w)).
Proof.
  intros Hclear Hsend. induction runs as [|ui runs IH]; intros w Hw;
    [exact Hw|].
  cbn [run_session]. unfold bind.
  destruct (run_script_cases ui w)
    as [-> | [-> | (key & response & HK & HT & ->)]].
  - apply IH. exact Hw.
  - apply IH. apply Hclear. exact Hw.
  - apply IH. apply Hsend; assumption.
Qed.








(** X15. An empty prompt is ignored even when Send is clicked, and so is
    any prompt when no credential is configured: nothing is stored and
    no call is made. *)
Theorem ignored_input_changes_nothing
  (send_button : bool) (prompt : str) (w : world) :
  prompt = [] \/ key_configured = false ->
  process_input send_button prompt w = (Returns tt, w).
Proof. apply process_input_skip. Qed.




Lemma build_request_fixed (key prompt context : str) :
  fixed_parameters key (build_request key prompt context).
Proof. repeat split. Qed.

(** X19. Every request posted during a session goes to [API_URL] with a
    timeout of 30, the two headers (the bearer credential and the JSON
    content type), the model [MODEL_NAME] and the same sampling
    parameters: 512 tokens, temperature 0.7, top_p 0.9, no streaming. *)
Theorem session_requests_fixed_parameters
  (key : str) (runs : list widgets)
  (ep : list request -> request -> outcome response) :
  HF_API_KEY = Some key ->
  Forall (fixed_parameters key)
    (posted (snd (run_session runs (initial_world ep)))).
Proof.
  intros HK.
  apply (@session_induction
           (fun w => Forall (fixed_parameters key) (posted w))).
  - intros w H. exact H.
  - intros w key' prompt response HK' _ H.
    assert (key' = key) as -> by congruence.
    cbn [posted after_send]. apply Forall_app. split; [exact H|].
    constructor; [apply build_request_fixed|constructor].
  - constructor.
Qed.

(** X20. Without a configured credential a session does nothing,
    whatever is typed or clicked: the store stays empty and no call is
    ever made. *)
Theorem session_without_credential_inert
  (runs : list widgets) (ep : list request -> request -> outcome response) :
  key_configured = false ->
  snd (run_session runs (initial_world ep)) = initial_world ep.
Proof.
  intros HK.
  apply (@session_induction (fun w => w = initial_world ep)).
  - intros w ->. reflexivity.
  - intros w key prompt response HK' HT _.
    rewrite (key_configured_of HK' HT) in HK. discriminate.
  - reflexivity.
Qed.

(* ===================================================================== *)
(** ** The label of the endpoint *)
(* ===================================================================== *)

Lemma list_getitem_last_but_one (l : list str) (a b : str) :
  list_getitem (l ++ [a; b]) (-2) = Returns a.
Proof.
  unfold list_getitem. rewrite length_app. cbn [List.length].
  change (-2 <? 0)%Z with true. cbv iota.
  replace ((0 <=? -2 + Z.of_nat (List.length l + 2))
           && (-2 + Z.of_nat (List.length l + 2)
               <? Z.of_nat (List.length l + 2)))%Z with true
    by (symmetry; apply andb_true_iff; split;
        [apply Z.leb_le | apply Z.ltb_lt]; lia).
  replace (Z.to_nat (-2 + Z.of_nat (List.length l + 2)))
    with (List.length l + 0) by lia.
  rewrite nth_error_app2 by lia.
  replace (List.length l + 0 - List.length l) with 0 by lia. reflexivity.
Qed.

Lemma list_getitem_last (l : list str) (a b : str) :
  list_getitem (l ++ [a; b]) (-1) = Returns b.
Proof.
  unfold list_getitem. rewrite length_app. cbn [List.length].
  change (-1 <? 0)%Z with true. cbv iota.
  replace ((0 <=? -1 + Z.of_nat (List.length l + 2))
           && (-1 + Z.of_nat (List.length l + 2)
               <? Z.of_nat (List.length l + 2)))%Z with true
    by (symmetry; apply andb_true_iff; split;
        [apply Z.leb_le | apply Z.ltb_lt]; lia).
  replace (Z.to_nat (-1 + Z.of_nat (List.length l + 2)))
    with (List.length l + 1) by lia.
  rewrite nth_error_app2 by lia.
  replace (List.length l + 1 - List.length l) with 1 by lia. reflexivity.
Qed.

Lemma endpoint_label_segments (head tail_ : str) :
  API_URL = head ++ slash :: tail_ -> ~ In slash tail_ ->
  endpoint_label =
  Returns (last (split slash head) [] ++ text "/" ++ tail_).
Proof.
  intros HU Ht. unfold endpoint_label.
  rewrite HU, split_app, (@split_no_sep slash tail_ Ht).
  destruct (@exists_last _ (split slash head) (@split_nonempty slash head))
    as (l & x & E).
  rewrite E, last_last, <- app_assoc. cbn [app].
  rewrite list_getitem_last_but_one, list_getitem_last. reflexivity.
Qed.

Lemma last_occurrence (c : char) (l : str) :
  In c l -> exists h t, l = h ++ c :: t /\ ~ In c t.
Proof.
  induction l as [|x l IH]; intros H; [destruct H|].
  destruct (in_dec N.eq_dec c l) as [Hin|Hnin].
  - destruct (IH Hin) as (h & t & -> & Ht).
    exists (x :: h), t. split; [reflexivity|exact Ht].
  - destruct H as [->|H]; [|contradiction].
    exists [], l. split; [reflexivity|exact Hnin].
Qed.

(** X21. For an [API_URL] with a slash the label shown in the sidebar is
    made of its last two segments: what stands between the last two
    slashes (or before the only one), a slash, and what stands behind
    the last slash. *)
Theorem endpoint_label_last_two_segments (head tail_ : str) :
  API_URL = head ++ slash :: tail_ -> ~ In slash tail_ ->
  endpoint_label =
  Returns (last (split slash head) [] ++ text "/" ++ tail_).
Proof. apply endpoint_label_segments. Qed.

Lemma endpoint_label_no_slash :
  ~ In slash API_URL ->
  endpoint_label =
  Raises (BuiltinError (IndexOutOfRange (PList [PStr API_URL]))).
Proof.
  intros H. unfold endpoint_label.
  rewrite (@split_no_sep slash API_URL H). reflexivity.
Qed.

(** X22. For an [API_URL] without any slash the label cannot be
    computed: the index -2 is out of the range of the one-element list
    and line 263 raises an IndexError. *)
Theorem endpoint_label_needs_slash :
  ~ In slash API_URL ->
  endpoint_label =
  Raises (BuiltinError (IndexOutOfRange (PList [PStr API_URL]))).
Proof. apply endpoint_label_no_slash. Qed.

(** X23. With such an [API_URL] every run of the script that is not a
    click on the clear button ends in that IndexError in the sidebar,
    before the input is looked at: the prompt is neither stored nor
    sent. *)
Theorem script_dies_in_sidebar (ui : widgets) (w : world) :
  ~ In slash API_URL -> clear_clicked ui = false ->
  script_run ui w =
  (Raises (BuiltinError (IndexOutOfRange (PList [PStr API_URL]))), w).
Proof.
  intros H HC. unfold script_run. rewrite HC.
  unfold bind, lift. rewrite (endpoint_label_no_slash H). reflexivity.
Qed.

(** X24. With an [API_URL] that has a slash the sidebar always passes,
    and a run of the whole script is the clear button or the processing
    of the input, nothing else. *)
Theorem script_run_with_label (ui : widgets) (w : world) :
  In slash API_URL -> script_run ui w = run_script ui w.
Proof.
  intros H. destruct (last_occurrence _ _ H) as (h & t & HU & Ht).
  unfold script_run, run_script. destruct (clear_clicked ui); [reflexivity|].
  unfold bind, lift. rewrite (@endpoint_label_segments h t HU Ht). reflexivity.
Qed.

Lemma sent_context_window (prompt : str) (w : world) :
  sent_context prompt w = serialize (window 5 (st_messages w)).
Proof.
  unfold sent_context.
  rewrite context_messages_window, window_snoc, all_but_last_snoc.
  reflexivity.
Qed.

Lemma window_Forall (P : message -> Prop) (n : nat) (store : list message) :
  Forall P store -> Forall P (window n store).
Proof.
  intros H. rewrite (window_suffix n store) in H.
  apply Forall_app in H. apply H.
Qed.

(** X25. When the stored messages are clean (one line each, free of the
    tag of their role, no surrounding whitespace), the request of a send
    carries exactly the preamble, the last five stored messages and the
    prompt: seven messages at most, however long the conversation is. *)
Theorem clean_store_request
  (send_button : bool) (key prompt : str) (w : world) :
  str_truthy prompt = true ->
  HF_API_KEY = Some key -> str_truthy key = true ->
  Forall clean_message (st_messages w) ->
  exists req,
    posted (snd (process_input send_button prompt w)) = posted w ++ [req] /\
    messages (req_json req) =
      system_message :: window 5 (st_messages w)
      ++ [Message user_role prompt] /\
    List.length (messages (req_json req)) <= 7.
Proof.
  intros HP HK HT HC.
  destruct (@process_input_send send_button key prompt w HP HK HT)
    as [response H].
  exists (build_request key prompt (sent_context prompt w)).
  split; [rewrite H; reflexivity|].
  assert (E : messages (req_json (build_request key prompt
                                    (sent_context prompt w)))
              = system_message :: window 5 (st_messages w)
                ++ [Message user_role prompt]).
  { unfold build_request, build_payload. cbn [req_json messages].
    rewrite build_messages_shape, sent_context_window.
    rewrite history_roundtrip; [reflexivity|].
    apply window_Forall. exact HC. }
  split; [exact E|].
  rewrite E. cbn [List.length]. rewrite length_app, window_length.
  cbn [List.length]. lia.
Qed.

End Stockapp.

(* ===================================================================== *)
(** ** Concrete runs *)
(* ===================================================================== *)

(** The client with the sample configuration. *)
Abbreviation sample_client :=
  (query_huggingface (Some sample_key) sample_url sample_model
     sample_str sample_fault_text).

Example text_ascii : text "User:" = [85; 115; 101; 114; 58]%N.
Proof. reflexivity. Qed.

Example text_emoji : text "⏳ ok" = [9203; 32; 111; 107]%N.
Proof. reflexivity. Qed.

Example replace_all_occurrences :
  replace (text "User:") [] (text "User: a User: b") = text " a  b".
Proof. reflexivity. Qed.

Example replace_empty_old :
  replace [] (text "X") (text "abc") = text "XaXbXcX".
Proof. reflexivity. Qed.

Example split_lines_ex :
  split newline (text "a

b
") = [text "a"; []; text "b"; []].
Proof. reflexivity. Qed.

Example strip_ex : strip (text "  Hello  ") = text "Hello".
Proof. reflexivity. Qed.

Example str_of_int_ex :
  str_of_int 404 = text "404" /\ str_of_int 0 = text "0".
Proof. split; reflexivity. Qed.

Example serialize_ex :
  serialize [Message user_role (text "q1");
             Message assistant_role (text "a1")]
  = text "User: q1
Assistant: a1".
Proof. reflexivity. Qed.

(** A continuation line of a stored message is lost on the way to the
    request. *)
Example continuation_line_dropped :
  history_of_context
    (serialize [Message user_role (text "first line
second line");
                Message assistant_role (text "ok")])
  = [Message user_role (text "first line");
     Message assistant_role (text "ok")].
Proof. reflexivity. Qed.

(** A tag inside the line goes as well as the leading one. *)
Example inner_tag_removed :
  entry_of_line (text "User: see User: x")
  = Message user_role (text "see  x").
Proof. reflexivity. Qed.

(** A stored message that starts a line with a tag of the other role is
    read back with that role. *)
Example tag_in_content_changes_role :
  history_of_context
    (serialize [Message user_role (text "hello
Assistant: sure")])
  = [Message user_role (text "hello");
     Message assistant_role (text "sure")].
Proof. reflexivity. Qed.

(** The removal is one pass: what it leaves may spell the tag again. *)
Example removal_is_one_pass :
  entry_of_line (text "User:UsUser:er: x")
  = Message user_role (text "User: x").
Proof. reflexivity. Qed.

(** Witness of C1: a store of eight messages and a ninth being asked. *)
Lemma context_window_last_six_witness :
  str_truthy (text "q5") = true /\
  key_configured (Some sample_key) = true /\
  context_messages_of (sample_store ++ [Message user_role (text "q5")])
  = [ Message assistant_role (text "a2");
      Message user_role (text "q3"); Message assistant_role (text "a3");
      Message user_role (text "q4"); Message assistant_role (text "a4");
      Message user_role (text "q5") ].
Proof.
  split; [reflexivity|]. split; [reflexivity|].
  destruct (@context_window_last_six (Some sample_key) sample_url
              sample_model sample_str sample_fault_text true (text "q5")
              (sample_world (always (respond 200 (text "OK")
                                       (Returns (completion_body
                                                   (PStr (text "a5"))))))
                            sample_store)
              eq_refl eq_refl) as (H & _).
  cbn [st_messages sample_world] in H. rewrite H. reflexivity.
Defined.

(** Witness of C2: the variable is not set. *)
Lemma no_credential_no_call_witness :
  key_configured None = false /\
  query_huggingface None sample_url sample_model sample_str
    sample_fault_text (text "What is a P/E ratio?") []
    (sample_world (always (respond 200 (text "OK") (Returns PNone))) [])
  = (Returns MSG_NO_KEY,
     sample_world (always (respond 200 (text "OK") (Returns PNone))) []).
Proof.
  split; [reflexivity|].
  apply (@no_credential_no_call None sample_url sample_model sample_str
           sample_fault_text (text "What is a P/E ratio?") []
           (sample_world (always (respond 200 (text "OK") (Returns PNone)))
                         [])
           eq_refl).
Defined.

(** Witness of C3: the endpoint answers 503. *)
Lemma status_classification_witness :
  fst (sample_client (text "hi") []
         (sample_world
            (always (respond 503 (text "Service Unavailable")
                       (Returns PNone))) []))
  = Returns MSG_LOADING.
Proof.
  pose proof (@status_classification (Some sample_key) sample_url
                sample_model sample_str sample_fault_text sample_key
                (text "hi") []
                (sample_world
                   (always (respond 503 (text "Service Unavailable")
                              (Returns PNone))) [])
                _ eq_refl eq_refl eq_refl) as H.
  cbv zeta in H. destruct H as (H & _).
  rewrite (H eq_refl). reflexivity.
Defined.

(** Witness of C4 (amended): the endpoint answers 500. *)
Lemma error_status_surfaced_witness :
  fst (sample_client (text "hi") []
         (sample_world
            (always (respond 500 (text "Internal Server Error")
                       (Returns PNone))) []))
  = Returns
      (msg_connection_error
         (text "500 Server Error: Internal Server Error for url: https://router.huggingface.co/v1/chat/completions")).
Proof.
  destruct (@error_status_surfaced (Some sample_key) sample_url
              sample_model sample_str sample_fault_text sample_key
              (text "hi") []
              (sample_world
                 (always (respond 500 (text "Internal Server Error")
                            (Returns PNone))) [])
              _ eq_refl eq_refl eq_refl eq_refl)
    as (msg & Hmsg & H).
  - discriminate.
  - discriminate.
  - discriminate.
  - rewrite H. vm_compute in Hmsg. injection Hmsg as <-.
    vm_compute. reflexivity.
Defined.

(** Counterexample to C4 as stated: the endpoint answers 404. The error
    is raised and caught, but the text returned is the model-not-found
    text, not the connection-error text with the message of the error. *)
Lemma not_found_status_counterexample :
  let r := {| status_code := 404; reason := text "Not Found";
              url := sample_url; json_result := Returns PNone |} in
  let error_msg :=
    text "404 Client Error: Not Found for url: https://router.huggingface.co/v1/chat/completions" in
  let result :=
    fst (sample_client (text "hi") []
           (sample_world (always (Returns r)) [])) in
  raise_for_status r = Raises (RequestException error_msg) /\
  result = Returns (text "❌ Model 'google/gemma-2-2b-it' not found. Please check your MODEL_NAME in .env file.") /\
  result <> Returns (msg_connection_error error_msg).
Proof.
  cbv zeta. split; [vm_compute; reflexivity|].
  split; [vm_compute; reflexivity|]. vm_compute. discriminate.
Qed.

(** Witness of C5: the body of the specification's example. *)
Lemma completion_text_trimmed_witness :
  fst (sample_client (text "hi") []
         (sample_world
            (always (respond 200 (text "OK")
                       (Returns (completion_body
                                   (PStr (text "  Hello  ")))))) []))
  = Returns (text "Hello").
Proof.
  destruct (@completion_text_trimmed (Some sample_key) sample_url
              sample_model sample_str sample_fault_text sample_key
              (text "hi") []
              (sample_world
                 (always (respond 200 (text "OK")
                            (Returns (completion_body
                                        (PStr (text "  Hello  ")))))) [])
              _ eq_refl eq_refl eq_refl eq_refl) as (G & _).
  rewrite (G _ _ _ _ (text "  Hello  ") eq_refl eq_refl eq_refl eq_refl);
    [reflexivity|discriminate].
Defined.

(** Witness of C6: the body of the specification's example, with the
    empty text as content. *)
Lemma empty_completion_fallback_witness :
  fst (sample_client (text "hi") []
         (sample_world
            (always (respond 200 (text "OK")
                       (Returns (completion_body (PStr []))))) []))
  = Returns MSG_FALLBACK.
Proof.
  rewrite (@empty_completion_fallback (Some sample_key) sample_url
             sample_model sample_str sample_fault_text sample_key
             (text "hi") []
             (sample_world
                (always (respond 200 (text "OK")
                           (Returns (completion_body (PStr []))))) [])
             _ _ _ _ eq_refl eq_refl eq_refl eq_refl eq_refl eq_refl).
  - reflexivity.
  - right. eexists. split; [reflexivity|]. right. reflexivity.
Defined.

(** Witness of C7 (amended): an object that reports an error. *)
Lemma missing_choices_warning_witness :
  fst (sample_client (text "hi") []
         (sample_world
            (always (respond 200 (text "OK")
                       (Returns (PDict [(text "error",
                                         PStr (text "overloaded"))]))))
            []))
  = Returns (text "⚠️ Unexpected response format: {'error': 'overloaded'}").
Proof.
  rewrite (@missing_choices_warning (Some sample_key) sample_url
             sample_model sample_str sample_fault_text sample_key
             (text "hi") []
             (sample_world
                (always (respond 200 (text "OK")
                           (Returns (PDict [(text "error",
                                             PStr (text "overloaded"))]))))
                [])
             _ _ eq_refl eq_refl eq_refl eq_refl eq_refl eq_refl).
  reflexivity.
Defined.

(** Counterexample to C7 as stated: the body [42] is valid JSON and has
    no [choices] field; the membership test raises, the second handler
    answers, and the text returned is not the warning with the decoded
    body, nor does it contain the body. *)
Lemma scalar_body_counterexample :
  let result :=
    fst (sample_client (text "hi") []
           (sample_world
              (always (respond 200 (text "OK") (Returns (PInt 42)))) [])) in
  result = Returns (text "⚠️ Unexpected error: argument of type 'int' is not iterable") /\
  result <> Returns (msg_unexpected_format (sample_str (PInt 42))) /\
  (forall s, result = Returns s -> contains (sample_str (PInt 42)) s = false).
Proof.
  cbv zeta. split; [vm_compute; reflexivity|].
  split; [vm_compute; discriminate|].
  intros s H. vm_compute in H. injection H as <-. vm_compute. reflexivity.
Qed.

(* ===================================================================== *)
(** ** Concrete runs of the further properties *)
(* ===================================================================== *)

(** Witness of X1: the connection is refused. *)
Lemma failed_call_reported_witness :
  fst (sample_client (text "hi") []
         (sample_world
            (always (Raises (RequestException (text "Connection refused"))))
            []))
  = Returns (msg_connection_error (text "Connection refused")).
Proof.
  rewrite (@failed_call_reported (Some sample_key) sample_url sample_model
             sample_str sample_fault_text sample_key (text "hi") []
             (sample_world
                (always (Raises (RequestException
                                   (text "Connection refused")))) [])
             _ eq_refl eq_refl eq_refl).
  vm_compute. reflexivity.
Defined.

(** Witness of X2: a page of HTML with status 200. *)
Lemma undecodable_body_reported_witness :
  fst (sample_client (text "hi") []
         (sample_world
            (always (respond 200 (text "OK")
                       (Raises (RequestException
                                  (text "Expecting value: line 1 column 1 (char 0)")))))
            []))
  = Returns (msg_connection_error
               (text "Expecting value: line 1 column 1 (char 0)")).
Proof.
  rewrite (@undecodable_body_reported (Some sample_key) sample_url
             sample_model sample_str sample_fault_text sample_key
             (text "hi") []
             (sample_world
                (always (respond 200 (text "OK")
                           (Raises (RequestException
                                      (text "Expecting value: line 1 column 1 (char 0)")))))
                [])
             _ _ eq_refl eq_refl eq_refl eq_refl eq_refl).
  vm_compute. reflexivity.
Defined.

(** Witness of X3: the answer 404 Not Found. *)
Lemma not_found_reported_as_model_error_witness :
  fst (sample_client (text "hi") []
         (sample_world
            (always (respond 404 (text "Not Found") (Returns PNone))) []))
  = Returns (msg_model_not_found sample_model).
Proof.
  destruct (@not_found_reported_as_model_error (Some sample_key) sample_url
              sample_model sample_str sample_fault_text sample_key
              (text "hi") []
              (sample_world
                 (always (respond 404 (text "Not Found") (Returns PNone)))
                 [])
              _ eq_refl eq_refl eq_refl eq_refl) as [_ H].
  rewrite H. vm_compute. reflexivity.
Defined.

(** Witness of X4: a server error behind port 4040. *)
Lemma digits_in_url_misreport_witness :
  fst (sample_client (text "hi") []
         (sample_world
            (always
               (Returns
                  {| status_code := 500;
                     reason := text "Internal Server Error";
                     url := text "http://localhost:4040/v1/chat/completions";
                     json_result := Returns PNone |})) []))
  = Returns (msg_model_not_found sample_model).
Proof.
  destruct (@digits_in_url_misreport (Some sample_key) sample_url
              sample_model sample_str sample_fault_text sample_key
              (text "hi") []
              (sample_world
                 (always
                    (Returns
                       {| status_code := 500;
                          reason := text "Internal Server Error";
                          url := text "http://localhost:4040/v1/chat/completions";
                          json_result := Returns PNone |})) [])
              _ eq_refl eq_refl eq_refl eq_refl)
    as [H|H].
  - discriminate.
  - discriminate.
  - discriminate.
  - right. vm_compute. reflexivity.
  - vm_compute in H. discriminate.
  - exact H.
Defined.

(** Witness of X5: an empty list of choices. *)
Lemma empty_choices_warning_witness :
  fst (sample_client (text "hi") []
         (sample_world
            (always (respond 200 (text "OK")
                       (Returns (PDict [(text "choices", PList [])]))))
            []))
  = Returns (text "⚠️ Unexpected response format: {'choices': []}").
Proof.
  rewrite (@empty_choices_warning (Some sample_key) sample_url sample_model
             sample_str sample_fault_text sample_key (text "hi") []
             (sample_world
                (always (respond 200 (text "OK")
                           (Returns (PDict [(text "choices", PList [])]))))
                [])
             _ _ _ eq_refl eq_refl eq_refl eq_refl eq_refl eq_refl eq_refl).
  vm_compute. reflexivity.
Defined.

(** Witness of X6: the content [null]. *)
Lemma falsy_content_fallback_witness :
  fst (sample_client (text "hi") []
         (sample_world
            (always (respond 200 (text "OK")
                       (Returns (completion_body PNone)))) []))
  = Returns MSG_FALLBACK.
Proof.
  rewrite (@falsy_content_fallback (Some sample_key) sample_url sample_model
             sample_str sample_fault_text sample_key (text "hi") []
             (sample_world
                (always (respond 200 (text "OK")
                           (Returns (completion_body PNone)))) [])
             _ _ _ _ _ _ eq_refl eq_refl eq_refl eq_refl eq_refl eq_refl
             eq_refl eq_refl eq_refl).
  reflexivity.
Defined.

(** Witness of X7: a content of three blanks. *)
Lemma blank_content_empty_reply_witness :
  fst (sample_client (text "hi") []
         (sample_world
            (always (respond 200 (text "OK")
                       (Returns (completion_body (PStr (text "   "))))))
            []))
  = Returns [].
Proof.
  rewrite (@blank_content_empty_reply (Some sample_key) sample_url
             sample_model sample_str sample_fault_text sample_key
             (text "hi") []
             (sample_world
                (always (respond 200 (text "OK")
                           (Returns (completion_body (PStr (text "   "))))))
                [])
             _ _ _ _ _ (text "   ") eq_refl eq_refl eq_refl eq_refl eq_refl
             eq_refl eq_refl eq_refl).
  - reflexivity.
  - discriminate.
  - repeat constructor.
Defined.

(** Witness of X8: the content 5. *)
Lemma non_text_content_reported_witness :
  fst (sample_client (text "hi") []
         (sample_world
            (always (respond 200 (text "OK")
                       (Returns (completion_body (PInt 5))))) []))
  = Returns (text "⚠️ Unexpected error: 'int' object has no attribute 'strip'").
Proof.
  rewrite (@non_text_content_reported (Some sample_key) sample_url
             sample_model sample_str sample_fault_text sample_key
             (text "hi") []
             (sample_world
                (always (respond 200 (text "OK")
                           (Returns (completion_body (PInt 5))))) [])
             _ _ _ _ _ (PInt 5) eq_refl eq_refl eq_refl eq_refl eq_refl
             eq_refl eq_refl eq_refl eq_refl).
  - vm_compute. reflexivity.
  - discriminate.
Defined.

(** Witness of X9: a list of choices whose first element is a text. *)
Lemma non_object_choice_reported_witness :
  fst (sample_client (text "hi") []
         (sample_world
            (always (respond 200 (text "OK")
                       (Returns (PDict [(text "choices",
                                         PList [PStr (text "Hello")])]))))
            []))
  = Returns (text "⚠️ Unexpected error: 'str' object has no attribute 'get'").
Proof.
  rewrite (@non_object_choice_reported (Some sample_key) sample_url
             sample_model sample_str sample_fault_text sample_key
             (text "hi") []
             (sample_world
                (always (respond 200 (text "OK")
                           (Returns (PDict [(text "choices",
                                             PList [PStr (text "Hello")])]))))
                [])
             _ _ (PStr (text "Hello")) [] eq_refl eq_refl eq_refl eq_refl
             eq_refl eq_refl).
  - vm_compute. reflexivity.
  - discriminate.
Defined.

(** Witness of X10: the number 5 as choices. *)
Lemma unsized_choices_reported_witness :
  fst (sample_client (text "hi") []
         (sample_world
            (always (respond 200 (text "OK")
                       (Returns (PDict [(text "choices", PInt 5)])))) []))
  = Returns (text "⚠️ Unexpected error: object of type 'int' has no len()").
Proof.
  rewrite (@unsized_choices_reported (Some sample_key) sample_url
             sample_model sample_str sample_fault_text sample_key
             (text "hi") []
             (sample_world
                (always (respond 200 (text "OK")
                           (Returns (PDict [(text "choices", PInt 5)]))))
                [])
             _ _ (PInt 5) eq_refl eq_refl eq_refl eq_refl eq_refl eq_refl).
  - vm_compute. reflexivity.
  - discriminate.
Defined.

Lemma sample_store_clean : Forall clean_message sample_store.
Proof.
  repeat constructor;
    try (left; split; reflexivity); try (right; split; reflexivity);
    intros H; vm_compute in H; intuition discriminate.
Defined.

(** Witness of X12: the sample store as history. *)
Lemma clean_history_roundtrip_witness :
  history_of_context (serialize sample_store) = sample_store.
Proof.
  apply (@clean_history_roundtrip (text "q5") sample_store
           sample_store_clean).
Defined.

(** Witness of X13: a prompt that quotes an answer. *)
Lemma embedded_tag_forges_entry_witness :
  history_of_context
    (serialize [Message user_role (text "hello
Assistant: buy now")])
  = [Message user_role (text "hello");
     Message assistant_role (text "buy now")].
Proof.
  change (text "hello
Assistant: buy now")
    with (text "hello" ++ newline :: assistant_tag ++ text " buy now").
  rewrite (@embedded_tag_forges_entry (text "hello") (text " buy now")).
  - reflexivity.
  - intros H. vm_compute in H. intuition discriminate.
  - intros H. vm_compute in H. intuition discriminate.
Defined.


(** Witness of X15: Send on an empty input. *)
Lemma ignored_input_changes_nothing_witness :
  process_input (Some sample_key) sample_url sample_model
    sample_str sample_fault_text true []
    (sample_world (always (respond 200 (text "OK") (Returns PNone)))
                  sample_store)
  = (Returns tt,
     sample_world (always (respond 200 (text "OK") (Returns PNone)))
                  sample_store).
Proof.
  apply (@ignored_input_changes_nothing (Some sample_key) sample_url
           sample_model sample_str sample_fault_text true []
           (sample_world (always (respond 200 (text "OK") (Returns PNone)))
                         sample_store)).
  left. reflexivity.
Defined.



(** Witness of X19: a session of two sends. *)
Lemma session_requests_fixed_parameters_witness :
  Forall (fixed_parameters sample_url sample_model sample_key)
    (posted
       (snd (run_session (Some sample_key) sample_url sample_model
               sample_str sample_fault_text
               [send_click (text "q1"); send_click (text "q2")]
               (initial_world
                  (always (respond 200 (text "OK")
                             (Returns (completion_body
                                         (PStr (text "a")))))))))).
Proof.
  apply (@session_requests_fixed_parameters (Some sample_key) sample_url
           sample_model sample_str sample_fault_text sample_key
           [send_click (text "q1"); send_click (text "q2")]
           (always (respond 200 (text "OK")
                      (Returns (completion_body (PStr (text "a"))))))
           eq_refl).
Defined.

(** Witness of X20: the same session without the variable. *)
Lemma session_without_credential_inert_witness :
  snd (run_session None sample_url sample_model
         sample_str sample_fault_text
         [send_click (text "q1"); clear_click; send_click (text "q2")]
         (initial_world
            (always (respond 200 (text "OK")
                       (Returns (completion_body (PStr (text "a"))))))))
  = initial_world
      (always (respond 200 (text "OK")
                 (Returns (completion_body (PStr (text "a")))))).
Proof.
  apply (@session_without_credential_inert None sample_url sample_model
           sample_str sample_fault_text
           [send_click (text "q1"); clear_click; send_click (text "q2")]
           (always (respond 200 (text "OK")
                      (Returns (completion_body (PStr (text "a"))))))
           eq_refl).
Defined.

(** Witness of X21: the label of the default endpoint. *)
Lemma endpoint_label_last_two_segments_witness :
  endpoint_label sample_url = Returns (text "chat/completions").
Proof.
  rewrite (@endpoint_label_last_two_segments sample_url
             (text "https://router.huggingface.co/v1/chat")
             (text "completions") eq_refl).
  - reflexivity.
  - intros H. vm_compute in H. intuition discriminate.
Defined.

(** Witness of X22: a host name as URL. *)
Lemma endpoint_label_needs_slash_witness :
  endpoint_label (text "localhost")
  = Raises (BuiltinError
              (IndexOutOfRange (PList [PStr (text "localhost")]))).
Proof.
  apply (@endpoint_label_needs_slash (text "localhost")).
  intros H. vm_compute in H. intuition discriminate.
Defined.

(** Witness of X23: a question with that URL. *)
Lemma script_dies_in_sidebar_witness :
  script_run (Some sample_key) (text "localhost") sample_model
    sample_str sample_fault_text (send_click (text "hi"))
    (sample_world (always (respond 200 (text "OK") (Returns PNone))) [])
  = (Raises (BuiltinError
               (IndexOutOfRange (PList [PStr (text "localhost")]))),
     sample_world (always (respond 200 (text "OK") (Returns PNone))) []).
Proof.
  apply (@script_dies_in_sidebar (Some sample_key) (text "localhost")
           sample_model sample_str sample_fault_text
           (send_click (text "hi"))
           (sample_world (always (respond 200 (text "OK") (Returns PNone)))
                         [])).
  - intros H. vm_compute in H. intuition discriminate.
  - reflexivity.
Defined.

(** Witness of X24: the same question with the default URL. *)
Lemma script_run_with_label_witness :
  script_run (Some sample_key) sample_url sample_model
    sample_str sample_fault_text (send_click (text "hi"))
    (sample_world (always (respond 200 (text "OK") (Returns PNone))) [])
  = run_script (Some sample_key) sample_url sample_model
      sample_str sample_fault_text (send_click (text "hi"))
      (sample_world (always (respond 200 (text "OK") (Returns PNone))) []).
Proof.
  apply (@script_run_with_label (Some sample_key) sample_url sample_model
           sample_str sample_fault_text (send_click (text "hi"))
           (sample_world (always (respond 200 (text "OK") (Returns PNone)))
                         [])).
  vm_compute. do 6 right. left. reflexivity.
Defined.

(** Witness of X25: a ninth message on the sample store. *)
Lemma clean_store_request_witness :
  exists req,
    posted
      (snd (process_input (Some sample_key) sample_url sample_model
              sample_str sample_fault_text true (text "q5")
              (sample_world
                 (always (respond 200 (text "OK")
                            (Returns (completion_body
                                        (PStr (text "a5"))))))
                 sample_store)))
    = [req] /\
    List.length (messages (req_json req)) <= 7.
Proof.
  destruct (@clean_store_request (Some sample_key) sample_url sample_model
              sample_str sample_fault_text true sample_key (text "q5")
              (sample_world
                 (always (respond 200 (text "OK")
                            (Returns (completion_body
                                        (PStr (text "a5"))))))
                 sample_store)
              eq_refl eq_refl eq_refl sample_store_clean)
    as (req & H1 & _ & H3).
  exists req. split; [exact H1|exact H3].
Defined.
